(** * PyKOB: the MKOB relay router and the session recorder/player

    A shallow embedding of [MKOB/kobmain.py] (the flow of Morse code between
    key, keyboard sender, wire and sounder) and of [pykob/recorder.py] (the
    JSON session log and its playback), with the properties of the design
    document checked against them.

    Conventions of the embedding.
    - A code sequence is a [list Z] of signed milliseconds.
    - Module globals and object fields become record fields; every function
      is a state transformer in the monad [M] below, which also collects the
      calls made on collaborators (sounder, reader, internet, callbacks,
      [print], [time.sleep]) in a trace, and carries Python exceptions.
    - Files are a finite map from path to the list of lines written so far.
      [json.dump]/[json.loads] belong to the Python library: a line is kept
      as the object it denotes.
    - Times are exact integers of milliseconds where Python holds floats of
      seconds: the log's timestamps and code elements are integers, so the
      float tests of [playback] ([codePause > 1.0], [pause > max_silence])
      are the integer tests written here; [max_silence] and [speed_factor]
      are the integers their callers pass. *)

From Stdlib Require Import ZArith Ascii String List Bool Lia.
From stdpp Require Import base gmap strings list.

Local Open Scope string_scope.
Local Open Scope Z_scope.
Local Open Scope list_scope.

(** ** Data *)

Definition CodeSequence := list Z.

Module kob.
(** Modelled from the spec: [pykob/kob.py] is not part of the sources at
    hand; [kob.CodeSource] is used by [kobmain] through its two members
    [local] and [wire], the two values of the ["o"] field of a log line. *)
Inductive CodeSource := local | wire.
End kob.

(** One line of a session log: the dictionary [data] of [Recorder.record]. *)
Record Line := mkLine {
  l_ts : Z;               (* "ts" *)
  l_w  : Z;               (* "w"  *)
  l_s  : string;          (* "s"  *)
  l_o  : kob.CodeSource;  (* "o"  *)
  l_c  : CodeSequence     (* "c"  *)
}.

(** Callbacks are opaque to the code; they are identified by a handle. *)
Definition callback := nat.

Inductive exn :=
| TypeError | FileNotFoundError | ValueError | ZeroDivisionError
| AttributeError.

Inductive printed :=
| PrFromKey (code : CodeSequence)            (* print("from_key", code) *)
| PrLine (ts : Z) (l : Line)                 (* print(dateTimeStr, line, end='') *)
| PrReduced (pause_ms : Z) (max_silence : Z) (* "Realtime pause of ..." *).

Inductive event :=
| EvPrint (p : printed)
| EvSleep (ms : Z)                              (* time.sleep(ms / 1000) *)
| EvSounder (code : CodeSequence)               (* myKOB.sounder(code) *)
| EvDecode (code : CodeSequence)                (* myReader.decode(code) *)
| EvFlush                                       (* myReader.flush() *)
| EvNewReader                                   (* myReader = morse.Reader(...) *)
| EvCodereaderAppend (txt : string)             (* ka.codereader_append(txt) *)
| EvNewSender (id : string)                     (* kobstationlist.new_sender(id) *)
| EvClearStationList                            (* kobstationlist.clear_station_list() *)
| EvInternetWrite (code : CodeSequence)         (* myInternet.write(code) *)
| EvInternetConnect (wire : Z)                  (* myInternet.connect(wire) *)
| EvInternetDisconnect                          (* myInternet.disconnect() *)
| EvRecord (code : CodeSequence) (src : kob.CodeSource)
                                                (* myRecorder.record(code, src) *)
| EvWireCallback (f : callback) (wire : Z)      (* wire_callback(wire) *)
| EvStationCallback (f : callback) (id : string) (* station_callback(station) *)
| EvCodeCallback (f : callback) (code : CodeSequence).
                                                (* self.code_callback(code) *)

Definition is_sounder (e : event) : bool :=
  match e with EvSounder _ => true | _ => false end.
Definition is_record (e : event) : bool :=
  match e with EvRecord _ _ => true | _ => false end.
Definition is_write (e : event) : bool :=
  match e with EvInternetWrite _ => true | _ => false end.
Definition is_sleep (e : event) : bool :=
  match e with EvSleep _ => true | _ => false end.

(** Number of events of a trace selected by [p]. *)
Definition calls (p : event -> bool) (tr : list event) : nat :=
  length (List.filter p tr).

(** ** The monad: state, trace of calls, exceptions *)

Inductive result (A : Type) :=
| Ok (a : A)
| Raise (e : exn).
Arguments Ok {A} a.
Arguments Raise {A} e.

Record Run (S A : Type) := mkRun {
  final : S;
  trace : list event;
  outcome : result A
}.
Arguments mkRun {S A}.
Arguments final {S A}.
Arguments trace {S A}.
Arguments outcome {S A}.

Definition M (S A : Type) : Type := S -> Run S A.

Definition ret {S A} (a : A) : M S A := fun s => mkRun s [] (Ok a).

Definition bind {S A B} (m : M S A) (k : A -> M S B) : M S B := fun s =>
  match m s with
  | mkRun s1 t1 (Ok a) =>
      match k a s1 with
      | mkRun s2 t2 o => mkRun s2 (t1 ++ t2) o
      end
  | mkRun s1 t1 (Raise e) => mkRun s1 t1 (Raise e)
  end.

Notation "x <<- m ;;; k" := (bind m (fun x => k))
  (at level 100, m at next level, right associativity).
Notation "m ;;; k" := (bind m (fun _ => k))
  (at level 100, right associativity).

Definition get {S} : M S S := fun s => mkRun s [] (Ok s).
Definition modify {S} (f : S -> S) : M S unit := fun s => mkRun (f s) [] (Ok tt).
Definition emit {S} (e : event) : M S unit := fun s => mkRun s [e] (Ok tt).
Definition raise {S A} (e : exn) : M S A := fun s => mkRun s [] (Raise e).
Definition when {S} (b : bool) (m : M S unit) : M S unit :=
  if b then m else ret tt.

(** Python's negative index [code[-1]], guarded by [len(code) > 0]. *)
Definition ends_with_1 (code : CodeSequence) : bool :=
  match last code with Some x => x =? 1 | None => false end.
Definition ends_without_1 (code : CodeSequence) : bool :=
  match last code with Some x => negb (x =? 1) | None => false end.

(** [time.sleep(ms / 1000)]: a negative length raises [ValueError]. *)
Definition sleep {S} (ms : Z) : M S unit :=
  if ms <? 0 then raise ValueError else emit (EvSleep ms).

(** ** The world outside the program: files and the clock *)

Record World := mkWorld {
  fs : gmap string (list Line);
  clock : Z                      (* int(time.time() * 1000) *)
}.

Definition append_line (p : string) (l : Line) (w : World) : World :=
  mkWorld (<[p := default [] (fs w !! p) ++ [l]]> (fs w)) (clock w).

(** [round(n / d)] of Python 3 on the exact quotient: to the nearest
    integer, ties to the even one ([d] is not zero). *)
Definition py_round (n d : Z) : Z :=
  let q := n / d in
  let r := n mod d in
  match Z.abs (2 * r) ?= Z.abs d with
  | Lt => q
  | Gt => q + 1
  | Eq => if Z.even q then q else q + 1
  end.

(** ** pykob/recorder.py *)

Module Recorder.

(** The fields set by [Recorder.__init__]; [code_callback] is the instance
    attribute [self.code_callback] that [playback] calls: [__init__] does
    not create it, so it is [None] here unless a client has assigned it. *)
Record t := mk {
  target_file_path : option string;
  source_file_path : option string;
  station_id : string;
  wire : Z;
  station_id_callback : option callback;
  wire_callback : option callback;
  code_callback : option callback
}.

Definition __init__ (target_file_path source_file_path : option string)
    (station_id : string) (wire : Z)
    (station_id_callback wire_callback : option callback) : t :=
  mk target_file_path source_file_path station_id wire
     station_id_callback wire_callback None.

Definition set_station_id (id : string) (r : t) : t :=
  mk (target_file_path r) (source_file_path r) id (wire r)
     (station_id_callback r) (wire_callback r) (code_callback r).

Definition set_wire (w : Z) (r : t) : t :=
  mk (target_file_path r) (source_file_path r) (station_id r) w
     (station_id_callback r) (wire_callback r) (code_callback r).

(** A method runs on the object and the world. *)
Record St := mkSt { self : t; world : World }.

Definition on_self (f : t -> t) : M St unit :=
  modify (fun st => mkSt (f (self st)) (world st)).
Definition on_world (f : World -> World) : M St unit :=
  modify (fun st => mkSt (self st) (f (world st))).

Definition get_timestamp : M St Z :=
  st <<- get ;;; ret (clock (world st)).

(** [Recorder.record]: [open(None, "a+")] raises [TypeError]; otherwise
    the line is appended to the target file, created when missing. *)
Definition record (code : CodeSequence) (source : kob.CodeSource) : M St unit :=
  timestamp <<- get_timestamp ;;;
  st <<- get ;;;
  let data := mkLine timestamp (wire (self st)) (station_id (self st)) source code in
  match target_file_path (self st) with
  | None => raise TypeError
  | Some p => on_world (append_line p data)
  end.

(** The keyword arguments of [playback], with their defaults. *)
Record Options := mkOptions {
  list_data : bool;
  max_silence : Z;                      (* seconds *)
  speed_factor : Z;                     (* percent *)
  opt_code_callback : option callback;
  opt_station_callback : option callback;
  opt_wire_callback : option callback
}.

Definition default_options : Options :=
  mkOptions false 0 100 None None None.

(** The local variables of [playback] that live across iterations; [c] is
    the variable of the inner [for c in code] loop. *)
Record Locals := mkLocals {
  lts : Z;
  lstation : option string;
  lwire : option Z;
  c : option Z
}.

Definition init_locals : Locals := mkLocals (-1) None None None.

(** [for c in code: if c < 0 or c > 2: c = round(sf * c)] with
    [sf = 1.0 / (speed_factor / 100.0)]. The assignment rebinds the loop
    variable; the list [code] is not written. What is returned is the
    binding of [c] when the loop ends. (Python computes [sf * c] in binary
    floating point; the exact quotient is used here, and the value is read
    nowhere.) *)
Definition speed_loop (speed_factor : Z) (code : CodeSequence) (c0 : option Z)
    : option Z :=
  fold_left
    (fun _ x => Some (if (x <? 0) || (2 <? x)
                      then py_round (100 * x) speed_factor else x))
    code c0.

(** The body of [for line in fp]. The tests on [codePause], a float of
    seconds equal to [-code[0] / 1000.0], are stated on the integer
    [-code[0]]: [1000 < -code[0] < 32767]. [pause], the float
    [round((ts - lts)/1000, 4)], is kept as [ts - lts] milliseconds and
    compared with [max_silence] seconds scaled by 1000. *)
Definition playback_line (o : Options) (loc : Locals) (data : Line)
    : M St Locals :=
  let code := l_c data in
  let ts := l_ts data in
  let wire := l_w data in
  let station := l_s data in
  lwire' <<- (if bool_decide (Some wire = lwire loc) then ret (lwire loc)
              else
                match opt_wire_callback o with
                | Some f => emit (EvWireCallback f wire)
                | None => ret tt
                end ;;; ret (Some wire)) ;;;
  lstation' <<- (if bool_decide (Some station = lstation loc)
                 then ret (lstation loc)
                 else
                   match opt_station_callback o with
                   | Some f => emit (EvStationCallback f station)
                   | None => ret tt
                   end ;;; ret (Some station)) ;;;
  let lts' := if lts loc <? 0 then ts else lts loc in
  when (list_data o) (emit (EvPrint (PrLine ts data))) ;;;
  match code with
  | [] => ret (mkLocals lts' lstation' lwire' (c loc))   (* continue *)
  | c0 :: rest =>
      on_self (set_wire (l_w data)) ;;;
      on_self (set_station_id (l_s data)) ;;;
      code' <<- (if (1000 <? - c0) && (- c0 <? 32767) then
                   let pause := ts - lts' in
                   pause' <<- (if (0 <? max_silence o)
                                  && (1000 * max_silence o <? pause)
                               then emit (EvPrint (PrReduced pause (max_silence o))) ;;;
                                    ret (1000 * max_silence o)
                               else ret pause) ;;;
                   sleep pause' ;;;
                   ret (-1 :: rest)
                 else ret code) ;;;
      c' <<- (if negb (speed_factor o =? 100) then
                if speed_factor o =? 0 then raise ZeroDivisionError
                else ret (speed_loop (speed_factor o) code' (c loc))
              else ret (c loc)) ;;;
      match opt_code_callback o with
      | Some _ =>
          st <<- get ;;;
          match code_callback (self st) with
          | Some f => emit (EvCodeCallback f code')
          | None => raise AttributeError
          end
      | None => ret tt
      end ;;;
      ret (mkLocals ts lstation' lwire' c')
  end.

Fixpoint playback_loop (o : Options) (loc : Locals) (lines : list Line)
    : M St Locals :=
  match lines with
  | [] => ret loc
  | data :: lines' =>
      loc' <<- playback_line o loc data ;;;
      playback_loop o loc' lines'
  end.

(** [Recorder.playback]: [open(None, "r")] raises [TypeError], a missing
    file [FileNotFoundError]. *)
Definition playback (o : Options) : M St unit :=
  st <<- get ;;;
  match source_file_path (self st) with
  | None => raise TypeError
  | Some p =>
      match fs (world st) !! p with
      | None => raise FileNotFoundError
      | Some lines => playback_loop o init_locals lines ;;; ret tt
      end
  end.

End Recorder.

(** ** MKOB/kobmain.py *)

Module kobmain.

(** The settings of [kobconfig] read by the router: [kc.Remote],
    [kc.Local], [kc.config.station] and [kc.WireNo]. *)
Record Config := mkConfig {
  kc_Remote : bool;
  kc_Local : bool;
  kc_station : string;
  kc_WireNo : Z
}.

(** The module globals, the Tk variable of the Circuit Closer checkbox,
    and the world. *)
Record State := mkState {
  connected : bool;
  circuit_closer : bool;       (* True if Circuit Closer checkbox is checked *)
  internet_active : bool;      (* True if a remote station is sending *)
  sender_ID : string;
  varCircuitCloser : Z;        (* ka.kw.varCircuitCloser *)
  myRecorder : option Recorder.t;
  world : World
}.

Definition set_connected (b : bool) (st : State) : State :=
  mkState b (circuit_closer st) (internet_active st) (sender_ID st)
          (varCircuitCloser st) (myRecorder st) (world st).
Definition set_circuit_closer (b : bool) (st : State) : State :=
  mkState (connected st) b (internet_active st) (sender_ID st)
          (varCircuitCloser st) (myRecorder st) (world st).
Definition set_internet_active (b : bool) (st : State) : State :=
  mkState (connected st) (circuit_closer st) b (sender_ID st)
          (varCircuitCloser st) (myRecorder st) (world st).
Definition set_sender_ID (id : string) (st : State) : State :=
  mkState (connected st) (circuit_closer st) (internet_active st) id
          (varCircuitCloser st) (myRecorder st) (world st).
Definition set_varCircuitCloser (v : Z) (st : State) : State :=
  mkState (connected st) (circuit_closer st) (internet_active st)
          (sender_ID st) v (myRecorder st) (world st).
Definition set_recorder (r : option Recorder.t) (w : World) (st : State)
    : State :=
  mkState (connected st) (circuit_closer st) (internet_active st)
          (sender_ID st) (varCircuitCloser st) r w.

Definition latch_code : CodeSequence := [-1000; 1].

(** Modelled from the spec: [ka.doCircuitCloser] of this version of MKOB
    is not part of the sources at hand. The router signals the circuit
    open or closed through it, and [circuit_closer] is "True if Circuit
    Closer checkbox is checked": the handler copies the checkbox into
    [circuit_closer]. *)
Definition doCircuitCloser : M State unit :=
  modify (fun st => set_circuit_closer (varCircuitCloser st =? 1) st).

(** [ka.kw.varCircuitCloser.set(v); ka.doCircuitCloser()] *)
Definition signal_circuit (v : Z) : M State unit :=
  modify (set_varCircuitCloser v) ;;; doCircuitCloser.

(** Run a method of the recorder object [r] in the router's world. *)
Definition on_recorder {A} (r : Recorder.t) (m : M Recorder.St A) : M State A :=
  fun st =>
    match m (Recorder.mkSt r (world st)) with
    | mkRun (Recorder.mkSt r' w') tr o =>
        mkRun (set_recorder (Some r') w' st) tr o
    end.

(** [if myRecorder: myRecorder.record(code, source)] *)
Definition myRecorder_record (code : CodeSequence) (source : kob.CodeSource)
    : M State unit :=
  st <<- get ;;;
  match myRecorder st with
  | Some r => emit (EvRecord code source) ;;;
              on_recorder r (Recorder.record code source)
  | None => ret tt
  end.

Definition newline : string := String "010"%char EmptyString.

Definition update_sender (id : string) : M State unit :=
  st <<- get ;;;
  if bool_decide (id = sender_ID st) then ret tt
  else
    modify (set_sender_ID id) ;;;
    emit EvFlush ;;;
    emit (EvCodereaderAppend (newline ++ newline ++ "<" ++ id ++ ">")%string) ;;;
    emit (EvNewSender id) ;;;
    emit EvNewReader ;;;
    modify (fun st =>
              match myRecorder st with
              | Some r => set_recorder (Some (Recorder.set_station_id id r))
                                       (world st) st
              | None => st
              end).

Section Router.
Variable kc : Config.

Definition from_key (code : CodeSequence) : M State unit :=
  emit (EvPrint (PrFromKey code)) ;;;
  when (ends_without_1 code) (signal_circuit 0) ;;;
  st <<- get ;;;
  when (negb (circuit_closer st))
    (when (connected st && kc_Remote kc) (emit (EvInternetWrite code)) ;;;
     when (negb (internet_active st))
       (update_sender (kc_station kc) ;;;
        myRecorder_record code kob.local ;;;
        emit (EvDecode code))) ;;;
  if ends_with_1 code
  then signal_circuit 1 ;;; emit EvFlush
  else signal_circuit 0.

Definition from_keyboard (code : CodeSequence) : M State unit :=
  when (ends_without_1 code) (signal_circuit 0) ;;;
  st <<- get ;;;
  when (negb (circuit_closer st))
    (when (connected st && kc_Remote kc) (emit (EvInternetWrite code)) ;;;
     when (negb (internet_active st))
       (when (kc_Local kc) (emit (EvSounder code)) ;;;
        update_sender (kc_station kc) ;;;
        myRecorder_record code kob.local ;;;
        emit (EvDecode code))) ;;;
  when (ends_with_1 code) (signal_circuit 1 ;;; emit EvFlush).

Definition from_internet (code : CodeSequence) : M State unit :=
  st <<- get ;;;
  if connected st then
    when (circuit_closer st)
      (emit (EvSounder code) ;;;
       emit (EvDecode code) ;;;
       myRecorder_record code kob.wire) ;;;
    if ends_with_1 code
    then modify (set_internet_active true) ;;; emit EvFlush
    else modify (set_internet_active true)
  else modify (set_internet_active false).

Definition toggle_connect : M State unit :=
  modify (fun st => set_connected (negb (connected st)) st) ;;;
  st <<- get ;;;
  if connected st then
    emit EvClearStationList ;;;
    emit (EvInternetConnect (kc_WireNo kc))
  else
    emit EvInternetDisconnect ;;;
    emit EvFlush ;;;
    sleep 500 ;;;
    modify (set_connected false) ;;;
    modify (set_internet_active false) ;;;
    when (circuit_closer st)
      (emit (EvSounder latch_code) ;;;
       emit (EvDecode latch_code) ;;;
       emit EvFlush) ;;;
    emit EvClearStationList.

End Router.

End kobmain.

(** ** The statements of the design document, and the inputs used below *)

Import kobmain.

(** Nothing reached the wire, the sounder or the recorder. *)
Definition quiet (tr : list event) : Prop :=
  calls is_write tr = 0%nat /\ calls is_sounder tr = 0%nat /\
  calls is_record tr = 0%nat.

Definition is_new_sender (e : event) : bool :=
  match e with EvNewSender _ => true | _ => false end.
Definition is_flush (e : event) : bool :=
  match e with EvFlush => true | _ => false end.
Definition is_new_reader (e : event) : bool :=
  match e with EvNewReader => true | _ => false end.
Definition is_station_callback (e : event) : bool :=
  match e with EvStationCallback _ _ => true | _ => false end.

(** [record] cannot fail on the path: there is no recorder, or it has a
    target file. *)
Definition recorder_writable (st : State) : bool :=
  match myRecorder st with
  | Some r => match Recorder.target_file_path r with
              | Some _ => true
              | None => false
              end
  | None => true
  end.

Definition has_recorder (st : State) : bool :=
  match myRecorder st with Some _ => true | None => false end.

(** The circuit is open when the packet is arbitrated: it was open, or the
    packet does not end in the latch value [+1]. *)
Definition keyed_open (st : State) (code : CodeSequence) : bool :=
  ends_without_1 code || negb (circuit_closer st).



(** "route(c, key) followed immediately by route(latch_marker, key) leaves
    circuit state Closed and internet_active = false" *)
Definition key_then_latch_resets (kc : Config) (st : State) (code : CodeSequence)
    : Prop :=
  let r := (from_key kc code ;;; from_key kc latch_code) st in
  circuit_closer (final r) = true /\ internet_active (final r) = false.

(** "On any disconnect ... resets internet_active = false ... and the latch
    code has been delivered regardless of the prior circuit and arbitration
    state" *)
Definition disconnect_delivers_latch (kc : Config) (st : State) : Prop :=
  connected st = true ->
  let r := toggle_connect kc st in
  internet_active (final r) = false /\
  In (EvSounder latch_code) (trace r) /\ In (EvDecode latch_code) (trace r).

(** "if the local circuit is closed ... forwarded ... internet_active is set
    to true; otherwise (local circuit open) it is not forwarded and
    internet_active is set to false. If not locally connected, the packet is
    discarded." *)
Definition wire_packet_rule (st : State) (code : CodeSequence) : Prop :=
  let r := from_internet code st in
  if connected st then
    if circuit_closer st then
      In (EvSounder code) (trace r) /\ In (EvDecode code) (trace r) /\
      internet_active (final r) = true
    else
      quiet (trace r) /\ internet_active (final r) = false
  else quiet (trace r).


(** "invoking a station-change notification twice in a row with the same id
    fires the observer exactly once" *)
Definition notified_once (st : State) (id : string) : Prop :=
  calls is_new_sender (trace ((update_sender id ;;; update_sender id) st)) = 1%nat.

Definition kc0 : Config := mkConfig true true "AC" 11.

Definition world0 : World := mkWorld ∅ 1600000000000.

(** The recorder as [kobmain] creates it. *)
Definition recorder0 : Recorder.t :=
  Recorder.__init__ (Some "MKOB.1600000000000.json") None EmptyString 11 None None.

(** The state of [kobmain] after its initialization. *)
Definition st_init : State :=
  mkState false true false EmptyString 1 (Some recorder0) world0.

(** Connected, the key open, nobody sending on the wire. *)
Definition st_keying : State :=
  mkState true false false "AC" 0 (Some recorder0) world0.

(** Connected, the circuit closed, a remote station sending. *)
Definition st_remote : State :=
  mkState true true true "XY" 1 (Some recorder0) world0.

(** Connected, the key open. *)
Definition st_open : State :=
  mkState true false true "XY" 0 (Some recorder0) world0.

(** *** The recorder and the player *)

Definition is_callback (e : event) : bool :=
  match e with
  | EvWireCallback _ _ | EvStationCallback _ _ | EvCodeCallback _ _ => true
  | _ => false
  end.

(** An event that is not a sleep, or a sleep of at most [cap] milliseconds. *)
Definition sleeps_at_most (cap : Z) (e : event) : Prop :=
  match e with EvSleep ms => ms <= cap | _ => True end.

(** An event that is not a delivery of code, or a delivery of [code]. *)
Definition delivers (code : CodeSequence) (e : event) : Prop :=
  match e with EvCodeCallback _ code' => code' = code | _ => True end.

(** A log line that is not a heartbeat. *)
Definition has_code (l : Line) : bool :=
  match l_c l with [] => false | _ => true end.

(** The code sequence [playback] hands on for a recorded [code]: a leading
    pause longer than 1 s and shorter than 32.767 s is replaced by -1. *)
Definition played_code (code : CodeSequence) : CodeSequence :=
  match code with
  | c0 :: rest => if (1000 <? - c0) && (- c0 <? 32767) then -1 :: rest else code
  | [] => []
  end.

(** Speed scaling in the words of the design document: "for every element
    whose magnitude is greater than the minimal debounce threshold (2 ms),
    rescale proportionally to 100/speed_factor". *)
Definition spec_rescale (speed_factor : Z) (code : CodeSequence) : CodeSequence :=
  map (fun x => if 2 <? Z.abs x then py_round (100 * x) speed_factor else x) code.

Definition set_speed_factor (sf : Z) (o : Recorder.Options) : Recorder.Options :=
  Recorder.mkOptions (Recorder.list_data o) (Recorder.max_silence o) sf
    (Recorder.opt_code_callback o) (Recorder.opt_station_callback o)
    (Recorder.opt_wire_callback o).


(** The recorder of the self-test of [recorder.py]: it records to and plays
    from the same file. *)
Definition recorder_test : Recorder.t :=
  Recorder.__init__ (Some "test.json") (Some "test.json") "Test Recorder" (-1)
                    None None.

(** The same, after a client has assigned [code_callback] on the object. *)
Definition recorder_test_cb : Recorder.t :=
  Recorder.mk (Some "test.json") (Some "test.json") "Test Recorder" (-1)
              None None (Some 7%nat).

Definition st_test : Recorder.St := Recorder.mkSt recorder_test_cb world0.

(** All three callbacks given. *)
Definition options_cb : Recorder.Options :=
  Recorder.mkOptions false 0 100 (Some 1%nat) (Some 2%nat) (Some 3%nat).

(** A log of one event with code [-1000, 60, -60]. *)
Definition log_speed : list Line :=
  [mkLine 1600000000000 11 "AC" kob.local [-1000; 60; -60]].

Definition st_speed : Recorder.St :=
  Recorder.mkSt recorder_test (mkWorld {["test.json" := log_speed]} 0).
Definition st_speed_cb : Recorder.St :=
  Recorder.mkSt recorder_test_cb (mkWorld {["test.json" := log_speed]} 0).

(** [playback(speed_factor=200, code_callback=...)] *)
Definition options_speed : Recorder.Options :=
  Recorder.mkOptions false 0 200 (Some 1%nat) None None.

(** A log with a gap of 20 seconds between two events, then a heartbeat. *)
Definition log_gap : list Line :=
  [mkLine 1600000000000 11 "AC" kob.local [-500; 60; -60; 180];
   mkLine 1600000020000 12 "XY" kob.wire [-19700; 60; -60; 60];
   mkLine 1600000021000 13 "ZZ" kob.wire []].

Definition st_gap : Recorder.St :=
  Recorder.mkSt recorder_test_cb (mkWorld {["test.json" := log_gap]} 0).

(** [playback(max_silence=5, code_callback=..., ...)] *)
Definition options_gap : Recorder.Options :=
  Recorder.mkOptions false 5 100 (Some 1%nat) (Some 2%nat) (Some 3%nat).

(** What [playback] leaves alone: the files, the clock, and every field of
    the recorder other than [wire] and [station_id]. *)
Definition same_objects (s0 s1 : Recorder.St) : Prop :=
  Recorder.world s1 = Recorder.world s0 /\
  Recorder.target_file_path (Recorder.self s1)
    = Recorder.target_file_path (Recorder.self s0) /\
  Recorder.source_file_path (Recorder.self s1)
    = Recorder.source_file_path (Recorder.self s0) /\
  Recorder.station_id_callback (Recorder.self s1)
    = Recorder.station_id_callback (Recorder.self s0) /\
  Recorder.wire_callback (Recorder.self s1)
    = Recorder.wire_callback (Recorder.self s0) /\
  Recorder.code_callback (Recorder.self s1)
    = Recorder.code_callback (Recorder.self s0).

(** The context fields of the recorder. *)
Definition context (s : Recorder.St) : Z * string :=
  (Recorder.wire (Recorder.self s), Recorder.station_id (Recorder.self s)).

(** *** Further statements: sessions, sequences of calls, regaining the wire *)

Definition is_code_callback (e : event) : bool :=
  match e with EvCodeCallback _ _ => true | _ => false end.
Definition is_wire_callback (e : event) : bool :=
  match e with EvWireCallback _ _ => true | _ => false end.
Definition is_line_print (e : event) : bool :=
  match e with EvPrint (PrLine _ _) => true | _ => false end.
Definition is_local_record (e : event) : bool :=
  match e with EvRecord _ kob.local => true | _ => false end.
Definition is_connect (e : event) : bool :=
  match e with EvInternetConnect _ => true | _ => false end.
Definition is_disconnect (e : event) : bool :=
  match e with EvInternetDisconnect => true | _ => false end.

(** A line whose leading pause [playback] takes over: above 1 s and below
    32.767 s. *)
Definition long_pause (l : Line) : bool :=
  match l_c l with
  | c0 :: _ => (1000 <? - c0) && (- c0 <? 32767)
  | [] => false
  end.

(** The timestamps of a log do not decrease. *)
Fixpoint ts_sorted (lines : list Line) : Prop :=
  match lines with
  | [] => True
  | l :: rest => Forall (fun l' => l_ts l <= l_ts l') rest /\ ts_sorted rest
  end.

(** What becomes of a line with code once its pause is dealt with: with
    [speed_factor = 0] the scaling step divides by zero; otherwise, when a
    [code_callback] argument is given, the code goes to the recorder's
    [code_callback] attribute [attr], and the call fails without one. *)
Definition delivery (o : Recorder.Options) (attr : option callback)
    : result (option callback) :=
  if negb (Recorder.speed_factor o =? 100) && (Recorder.speed_factor o =? 0)
  then Raise ZeroDivisionError
  else match Recorder.opt_code_callback o with
       | None => Ok None
       | Some _ => match attr with
                   | Some f => Ok (Some f)
                   | None => Raise AttributeError
                   end
       end.

(** The deliveries of code a log gives rise to. *)
Definition delivered (d : result (option callback)) (lines : list Line)
    : list event :=
  match d with
  | Ok (Some f) =>
      map (fun l => EvCodeCallback f (played_code (l_c l)))
          (List.filter has_code lines)
  | _ => []
  end.

(** [lts] is unset, or not after any of the lines still to be played. *)
Definition lts_below (loc : Recorder.Locals) (lines : list Line) : Prop :=
  Recorder.lts loc < 0 \/ Forall (fun l => Recorder.lts loc <= l_ts l) lines.

(** The values of [l] that differ from their predecessor, [prev] being the
    predecessor of the first. *)
Fixpoint changes_from {A} `{EqDecision A} (prev : option A) (l : list A) : list A :=
  match l with
  | [] => []
  | x :: l' =>
      (if bool_decide (Some x = prev) then [] else [x]) ++ changes_from (Some x) l'
  end.

(** One call of [record], made when the clock reads [rc_now]. *)
Record RecordCall := mkRecordCall {
  rc_now : Z;
  rc_code : CodeSequence;
  rc_source : kob.CodeSource
}.

Definition set_clock (t : Z) (w : World) : World := mkWorld (fs w) t.

Definition record_at (c : RecordCall) : M Recorder.St unit :=
  Recorder.on_world (set_clock (rc_now c)) ;;;
  Recorder.record (rc_code c) (rc_source c).

Fixpoint record_all (cs : list RecordCall) : M Recorder.St unit :=
  match cs with
  | [] => ret tt
  | c :: cs' => record_at c ;;; record_all cs'
  end.

(** The line that a call of [record] on the recorder [r] writes. *)
Definition line_of (r : Recorder.t) (c : RecordCall) : Line :=
  mkLine (rc_now c) (Recorder.wire r) (Recorder.station_id r)
         (rc_source c) (rc_code c).

Fixpoint readings_sorted (cs : list RecordCall) : Prop :=
  match cs with
  | [] => True
  | c :: rest => Forall (fun c' => rc_now c <= rc_now c') rest /\ readings_sorted rest
  end.

Definition nonempty (code : CodeSequence) : bool :=
  match code with [] => false | _ => true end.

(** The calls that reach [kobmain] while MKOB runs: packets from the key, the
    keyboard sender and the wire, the sender announced by the wire
    ([myInternet.monitor_sender(update_sender)]) and the Connect button. *)
Inductive call :=
| CallKey (code : CodeSequence)
| CallKeyboard (code : CodeSequence)
| CallInternet (code : CodeSequence)
| CallUpdateSender (id : string)
| CallToggleConnect.

Definition is_packet (c : call) : bool :=
  match c with
  | CallKey _ | CallKeyboard _ | CallInternet _ => true
  | _ => false
  end.

Definition run_call (kc : Config) (c : call) : M State unit :=
  match c with
  | CallKey code => from_key kc code
  | CallKeyboard code => from_keyboard kc code
  | CallInternet code => from_internet code
  | CallUpdateSender id => update_sender id
  | CallToggleConnect => toggle_connect kc
  end.

Fixpoint run_calls (kc : Config) (cs : list call) : M State unit :=
  match cs with
  | [] => ret tt
  | c :: cs' => run_call kc c ;;; run_calls kc cs'
  end.

(** The recorder, when there is one, holds the recognized sender as its
    station; [kobmain] starts this way
    ([Recorder(..., station_id=sender_ID, ...)]). *)
Definition in_sync (st : State) : Prop :=
  match myRecorder st with
  | Some r => Recorder.station_id r = sender_ID st
  | None => True
  end.

(** The line that a local packet heard by the router leaves in the log. *)
Definition local_line (kc : Config) (st : State) (r : Recorder.t)
    (code : CodeSequence) : Line :=
  mkLine (clock (kobmain.world st)) (Recorder.wire r) (kc_station kc)
         kob.local code.






(** Milliseconds slept in a trace. *)
Definition slept_ms (tr : list event) : Z :=
  fold_right (fun e acc => match e with EvSleep ms => ms + acc | _ => acc end) 0 tr.

(** The time a log spans, from its first to its last timestamp. *)
Definition span_ms (lines : list Line) : Z :=
  match lines with
  | [] => 0
  | l :: _ => l_ts (List.last lines l) - l_ts l
  end.


(** [playback(list_data=True)] *)
Definition options_list : Recorder.Options :=
  Recorder.mkOptions true 0 100 None None None.

(** Three calls of [record]: a character, a heartbeat, and a character after
    a silence of two seconds. *)
Definition session_calls : list RecordCall :=
  [mkRecordCall 1600000000000 [-500; 60; -60; 180] kob.local;
   mkRecordCall 1600000000700 [] kob.local;
   mkRecordCall 1600000003000 [-2000; 60; -1000; 1] kob.wire].

(** A key packet, a wire packet and a keyboard packet. *)
Definition packets_sample : list call :=
  [CallKey [-120; 60]; CallInternet [-300; 60; -60; 180]; CallKeyboard [-60; 60]].


(** ** Proof tools *)

Ltac unfold_m :=
  cbv [bind ret get modify emit raise when sleep signal_circuit doCircuitCloser
       myRecorder_record on_recorder update_sender
       Recorder.record Recorder.get_timestamp Recorder.on_world Recorder.on_self].

(** Case analysis on the router state and on the trailing element of the
    packet, before the router functions are run. *)
Ltac router_cases st code :=
  destruct st as [cn cc ia sid v [[tgt src rsid rw scb wcb ccb]|] w];
  cbn [connected circuit_closer internet_active sender_ID varCircuitCloser
       myRecorder world] in *;
  subst;
  unfold from_key, from_keyboard, from_internet, keyed_open,
    ends_without_1, ends_with_1;
  (destruct (last code) as [x|]; [destruct (x =? 1)|]);
  unfold_m; cbn.

Ltac split_if :=
  match goal with
  | |- context [if ?b then _ else _] => destruct b eqn:?
  | |- context [match ?x with Some _ => _ | None => _ end] => destruct x eqn:?
  end.

(** Run one iteration of [playback], branch by branch. *)
Ltac line_cases :=
  unfold Recorder.playback_line; unfold_m; cbn;
  repeat (split_if; cbn).

(** ** The relay router *)

Lemma ends_with_1_latch_code : ends_with_1 latch_code = true.
Proof. reflexivity. Qed.


(** C1. While a remote station holds the line ([internet_active] is true), a
    packet from the key or from the keyboard sender makes no call of the
    sounder and no call of the recorder, and leaves the files as they are. *)
Theorem local_packets_muted_while_internet_active kc st code :
  internet_active st = true ->
  let rk := from_key kc code st in
  let rb := from_keyboard kc code st in
  calls is_sounder (trace rk) = 0%nat /\ calls is_record (trace rk) = 0%nat /\
  world (final rk) = world st /\
  calls is_sounder (trace rb) = 0%nat /\ calls is_record (trace rb) = 0%nat /\
  world (final rb) = world st.
Proof.
  intros Hia. router_cases st code.
  all: destruct cc, cn, (kc_Remote kc); cbn; done.
Qed.

Lemma local_packets_muted_witness :
  internet_active st_open = true /\
  calls is_record (trace (from_key kc0 [-120; 60] st_open)) = 0%nat.
Proof.
  split; [reflexivity|].
  exact (proj1 (proj2
    (local_packets_muted_while_internet_active kc0 st_open [-120; 60] eq_refl))).
Defined.






(** C5, as stated, fails: [from_key] never writes [internet_active]; when a
    remote station was sending before the two calls, it still is after. *)
Lemma key_then_latch_keeps_internet_active :
  ~ key_then_latch_resets kc0 st_remote [-1000; 60].
Proof.
  intros [_ Hia]. vm_compute in Hia. discriminate.
Qed.

(** C5, amended. For every code sequence [code], [from_key code] followed by
    [from_key latch_code] returns, leaves the circuit closed and leaves
    [internet_active] as it was before the two calls (false if it was
    false). *)
Theorem key_then_latch_closes_circuit kc st code :
  recorder_writable st = true ->
  let r := (from_key kc code ;;; from_key kc latch_code) st in
  outcome r = Ok tt /\
  circuit_closer (final r) = true /\
  internet_active (final r) = internet_active st.
Proof.
  unfold recorder_writable, latch_code. intros Hrec. router_cases st code.
  all: try discriminate Hrec.
  all: try (destruct tgt; [|discriminate Hrec]).
  all: destruct cc, cn, ia, (kc_Remote kc); cbn.
  all: repeat (case_bool_decide; cbn); done.
Qed.

Lemma key_then_latch_closes_circuit_witness :
  recorder_writable st_keying = true /\
  circuit_closer
    (final ((from_key kc0 [-1000; 60] ;;; from_key kc0 latch_code) st_keying))
  = true.
Proof.
  split; [reflexivity|].
  exact (proj1 (proj2
    (key_then_latch_closes_circuit kc0 st_keying [-1000; 60] eq_refl))).
Defined.

(** C6, as stated, fails: when the key is open at disconnect
    ([circuit_closer] false), the latch code is not sent to the sounder. *)
Lemma disconnect_with_open_key_sends_no_latch :
  ~ disconnect_delivers_latch kc0 st_open.
Proof.
  intros H. destruct (H eq_refl) as (_ & Hsounder & _).
  vm_compute in Hsounder. intuition discriminate.
Qed.

(** C6, amended. When [toggle_connect] takes the station from connected to
    disconnected, it returns with [connected] and [internet_active] false;
    it disconnects, flushes the reader and waits half a second; the latch
    code is delivered to the sounder and to the reader exactly when the
    circuit closer is closed, and [circuit_closer] itself is not changed. *)
Theorem disconnect_resets_internet_active kc st :
  connected st = true ->
  let r := toggle_connect kc st in
  outcome r = Ok tt /\
  connected (final r) = false /\
  internet_active (final r) = false /\
  circuit_closer (final r) = circuit_closer st /\
  trace r =
    [EvInternetDisconnect; EvFlush; EvSleep 500]
    ++ (if circuit_closer st
        then [EvSounder latch_code; EvDecode latch_code; EvFlush] else [])
    ++ [EvClearStationList].
Proof.
  intros Hc. destruct st as [cn cc ia sid v rec w]. cbn in Hc. subst cn.
  unfold toggle_connect. unfold_m. cbn. destruct cc; cbn; done.
Qed.

Lemma disconnect_resets_internet_active_witness :
  connected st_remote = true /\
  internet_active (final (toggle_connect kc0 st_remote)) = false.
Proof.
  split; [reflexivity|].
  exact (proj1 (proj2 (proj2
    (disconnect_resets_internet_active kc0 st_remote eq_refl)))).
Defined.

(** C7, as stated, fails: a packet from the wire that arrives while the
    station is connected and the key is open leaves [internet_active] true,
    not false. *)
Lemma wire_packet_with_open_key_sets_internet_active :
  ~ wire_packet_rule st_keying [-120; 60].
Proof.
  intros [_ Hia]. vm_compute in Hia. discriminate.
Qed.

(** C7, amended. A packet from the wire: while connected, it is forwarded to
    the sounder, the reader and (when there is one) the recorder iff the
    circuit closer is closed, and [internet_active] is set to true whether or
    not it was forwarded; while not connected, nothing is called and
    [internet_active] is set to false. *)
Theorem wire_packet_arbitration st code :
  recorder_writable st = true ->
  let r := from_internet code st in
  outcome r = Ok tt /\
  internet_active (final r) = connected st /\
  trace r =
    if connected st then
      (if circuit_closer st
       then [EvSounder code; EvDecode code]
            ++ (if has_recorder st then [EvRecord code kob.wire] else [])
       else [])
      ++ (if ends_with_1 code then [EvFlush] else [])
    else [].
Proof.
  unfold recorder_writable, has_recorder. intros Hrec. router_cases st code.
  all: try discriminate Hrec.
  all: try (destruct tgt; [|discriminate Hrec]).
  all: destruct cc, cn; cbn; done.
Qed.

Lemma wire_packet_arbitration_witness :
  recorder_writable st_remote = true /\
  trace (from_internet [-120; 60] st_remote)
  = [EvSounder [-120; 60]; EvDecode [-120; 60]; EvRecord [-120; 60] kob.wire].
Proof.
  split; [reflexivity|].
  exact (proj2 (proj2 (wire_packet_arbitration st_remote [-120; 60] eq_refl))).
Defined.

(** [update_sender] acts iff the id differs from the recognized one. *)
Lemma update_sender_recognized st id :
  sender_ID st = id -> update_sender id st = mkRun st [] (Ok tt).
Proof.
  intros <-. unfold update_sender. unfold_m. by rewrite bool_decide_eq_true_2.
Qed.

Lemma update_sender_new st id :
  id <> sender_ID st ->
  update_sender id st =
  mkRun (match myRecorder st with
         | Some r => set_recorder (Some (Recorder.set_station_id id r)) (world st)
                                  (set_sender_ID id st)
         | None => set_sender_ID id st
         end)
        [EvFlush; EvCodereaderAppend (newline ++ newline ++ "<" ++ id ++ ">")%string;
         EvNewSender id; EvNewReader]
        (Ok tt).
Proof.
  intros Hne. unfold update_sender. unfold_m.
  rewrite bool_decide_eq_false_2 by done. cbn.
  by destruct (myRecorder st).
Qed.

Lemma update_sender_sets_id st id : sender_ID (final (update_sender id st)) = id.
Proof.
  destruct (decide (id = sender_ID st)) as [->|Hne].
  - by rewrite update_sender_recognized.
  - rewrite update_sender_new by done. by destruct (myRecorder st).
Qed.

(** C9, as stated, fails: from the initial state, where the recognized
    sender is the empty string, two notifications with the empty id fire
    the observer not once but never. *)
Lemma repeated_id_may_never_fire : ~ notified_once st_init EmptyString.
Proof.
  unfold notified_once. vm_compute. discriminate.
Qed.

(** C9, amended. [update_sender] fires the observer (reader flush, station
    list announcement, new reader, recorder station update) iff the id
    differs from the one recognized before: for two calls in a row with the
    same id the second is a no-op, and the observer fires once when the id is
    new and not at all when it is the recognized one. The player does the
    same with its station callback: a line fires it iff its station differs
    from the last one seen (and a callback was given). *)
Theorem sender_update_fires_on_change_only st id o loc data rst :
  let r1 := update_sender id st in
  let r2 := update_sender id (final r1) in
  let fired := if bool_decide (id = sender_ID st) then 0%nat else 1%nat in
  r2 = mkRun (final r1) [] (Ok tt) /\
  outcome r1 = Ok tt /\
  calls is_new_sender (trace r1) = fired /\
  calls is_flush (trace r1) = fired /\
  calls is_new_reader (trace r1) = fired /\
  calls is_new_sender (trace ((update_sender id ;;; update_sender id) st)) = fired /\
  option_map Recorder.station_id (myRecorder (final r1))
    = option_map (fun old => if bool_decide (id = sender_ID st) then old else id)
                 (option_map Recorder.station_id (myRecorder st)) /\
  calls is_station_callback (trace (Recorder.playback_line o loc data rst))
    = if bool_decide (Some (l_s data) = Recorder.lstation loc) then 0%nat
      else match Recorder.opt_station_callback o with
           | Some _ => 1%nat
           | None => 0%nat
           end.
Proof.
  cbv zeta.
  assert (calls is_station_callback (trace (Recorder.playback_line o loc data rst))
          = if bool_decide (Some (l_s data) = Recorder.lstation loc) then 0%nat
            else match Recorder.opt_station_callback o with
                 | Some _ => 1%nat
                 | None => 0%nat
                 end) as Hline.
  { destruct rst as [[tgt src sid w scb wcb ccb] wd],
      data as [ts lw ls lo [|c0 rest]].
    all: line_cases.
    all: done. }
  unfold bind. destruct (decide (id = sender_ID st)) as [Hid|Hid].
  - rewrite !(bool_decide_eq_true_2 (id = sender_ID st)) by done. subst id.
    rewrite !(update_sender_recognized st (sender_ID st)) by reflexivity.
    cbn [final trace outcome].
    rewrite ?(update_sender_recognized st (sender_ID st)) by reflexivity. cbn.
    repeat split; try done. by destruct (myRecorder st).
  - rewrite !(bool_decide_eq_false_2 (id = sender_ID st)) by done.
    rewrite !(update_sender_new st id) by done. cbn [final trace outcome].
    destruct (myRecorder st) as [r|] eqn:Hrec.
    all: rewrite ?(update_sender_recognized _ id) by reflexivity; cbn.
    all: rewrite ?Hrec; repeat split; done.
Qed.

(** ** The session recorder and player *)

Import Recorder.

Lemma playback_line_frame o loc data st :
  let r := playback_line o loc data st in
  same_objects st (final r) /\
  context (final r) = if has_code data then (l_w data, l_s data) else context st.
Proof.
  unfold same_objects, context, has_code.
  destruct st as [[tgt src sid w scb wcb ccb] wd], data as [ts lw ls lo [|c0 rest]].
  all: line_cases.
  all: done.
Qed.

Lemma last_filter_cons {A} (f : A -> bool) x l :
  last (List.filter f (x :: l)) =
  match last (List.filter f l) with
  | Some y => Some y
  | None => if f x then Some x else None
  end.
Proof.
  cbn. destruct (f x); [|by destruct (last (List.filter f l))].
  destruct (List.filter f l) as [|y l']; [done|].
  rewrite last_cons. by destruct (last (y :: l')).
Qed.

Lemma playback_loop_frame o lines : forall loc st,
  let r := playback_loop o loc lines st in
  same_objects st (final r) /\
  (forall loc', outcome r = Ok loc' ->
     context (final r) =
     match last (List.filter has_code lines) with
     | Some l => (l_w l, l_s l)
     | None => context st
     end).
Proof.
  induction lines as [|data lines IH]; intros loc st.
  - cbn. unfold same_objects. tauto.
  - cbn [playback_loop]. unfold bind. rewrite last_filter_cons.
    pose proof (playback_line_frame o loc data st) as [Hf1 Hc1].
    destruct (playback_line o loc data st) as [s1 t1 [loc1|e]]; cbn in *.
    + pose proof (IH loc1 s1) as [Hf2 Hc2].
      destruct (playback_loop o loc1 lines s1) as [s2 t2 o2]; cbn in *.
      split.
      * unfold same_objects in *. intuition congruence.
      * intros loc' Hok. rewrite (Hc2 _ Hok).
        destruct (last (List.filter has_code lines)); [done|].
        rewrite Hc1. by destruct (has_code data).
    + split; [done|]. intros loc' Hok. discriminate.
Qed.

(** C10. Every line of the log that has code overwrites the recorder's [wire]
    and [station_id] with its own (a heartbeat leaves them), so that when
    [playback] returns they are those of the last line that has code
    (untouched when there is none); its other fields - target and source path, the two
    callbacks, the [code_callback] attribute - are unchanged. *)
Theorem playback_overwrites_context o st p lines :
  source_file_path (self st) = Some p ->
  fs (world st) !! p = Some lines ->
  outcome (playback o st) = Ok tt ->
  let s1 := self (final (playback o st)) in
  (forall loc data st',
     context (final (playback_line o loc data st'))
     = if has_code data then (l_w data, l_s data) else context st') /\
  (wire s1, station_id s1) =
    match last (List.filter has_code lines) with
    | Some l => (l_w l, l_s l)
    | None => (wire (self st), station_id (self st))
    end /\
  target_file_path s1 = target_file_path (self st) /\
  source_file_path s1 = source_file_path (self st) /\
  station_id_callback s1 = station_id_callback (self st) /\
  wire_callback s1 = wire_callback (self st) /\
  code_callback s1 = code_callback (self st).
Proof.
  intros Hp Hlines. unfold playback. unfold_m. rewrite Hp, Hlines.
  pose proof (playback_loop_frame o lines init_locals st) as [Hf Hc].
  destruct (playback_loop o init_locals lines st) as [s1 t1 [loc1|e]]; cbn in *.
  - intros _. split; [intros; apply playback_line_frame|].
    split; [by apply (Hc loc1)|].
    unfold same_objects in Hf. intuition congruence.
  - discriminate.
Qed.

Lemma playback_overwrites_context_witness :
  outcome (playback options_gap st_gap) = Ok tt /\
  (wire (self (final (playback options_gap st_gap))),
   station_id (self (final (playback options_gap st_gap)))) = (12, "XY").
Proof.
  split; [vm_compute; reflexivity|].
  refine (proj1 (proj2 (playback_overwrites_context options_gap st_gap
                          "test.json" log_gap eq_refl _ _)));
    vm_compute; reflexivity.
Defined.

Lemma playback_line_sleeps o loc data st :
  0 < max_silence o ->
  Forall (sleeps_at_most (1000 * max_silence o))
         (trace (playback_line o loc data st)).
Proof.
  intros Hmax.
  destruct st as [[tgt src sid w scb wcb ccb] wd], data as [ts lw ls lo [|c0 rest]].
  all: line_cases.
  all: repeat constructor.
  all: cbn; lia.
Qed.

(** A property of every event of every line holds of the whole playback. *)
Lemma playback_loop_Forall (P : event -> Prop) o :
  (forall loc data st, Forall P (trace (playback_line o loc data st))) ->
  forall lines loc st, Forall P (trace (playback_loop o loc lines st)).
Proof.
  intros Hline lines. induction lines as [|data lines IH]; intros loc st.
  - constructor.
  - cbn [playback_loop]. unfold bind.
    pose proof (Hline loc data st) as H1.
    destruct (playback_line o loc data st) as [s1 t1 [loc1|e]]; cbn in *; [|done].
    pose proof (IH loc1 s1) as H2.
    destruct (playback_loop o loc1 lines s1) as [s2 t2 o2]; cbn in *.
    by apply Forall_app.
Qed.

Lemma playback_Forall (P : event -> Prop) o :
  (forall loc data st, Forall P (trace (playback_line o loc data st))) ->
  forall st, Forall P (trace (playback o st)).
Proof.
  intros Hline st. unfold playback. unfold_m.
  destruct (source_file_path (self st)) as [p|]; [|constructor].
  destruct (fs (world st) !! p) as [lines|]; [|constructor].
  pose proof (playback_loop_Forall P o Hline lines init_locals st) as H.
  destruct (playback_loop o init_locals lines st) as [s1 t1 [l1|e]]; cbn in *.
  - by rewrite app_nil_r.
  - done.
Qed.

Lemma playback_line_neutralizes o loc data st c0 rest :
  l_c data = c0 :: rest -> 1000 < - c0 -> - c0 < 32767 ->
  let lts' := if lts loc <? 0 then l_ts data else lts loc in
  let pause := l_ts data - lts' in
  let slept := if (0 <? max_silence o) && (1000 * max_silence o <? pause)
               then 1000 * max_silence o else pause in
  let r := playback_line o loc data st in
  Forall (delivers (-1 :: rest)) (trace r) /\
  if 0 <=? slept
  then calls is_sleep (trace r) = 1%nat /\ In (EvSleep slept) (trace r)
  else outcome r = Raise ValueError /\ calls is_sleep (trace r) = 0%nat.
Proof.
  intros Hc Hlo Hhi.
  assert ((1000 <? - c0) && (- c0 <? 32767) = true) as Hrange.
  { apply andb_true_intro. split; by apply Z.ltb_lt. }
  destruct st as [[tgt src sid w scb wcb ccb] wd], data as [ts lw ls lo code].
  cbn in Hc. subst code. cbn [l_ts].
  unfold playback_line; unfold_m; cbn. rewrite Hrange. cbn.
  destruct (lts loc <? 0) eqn:Hlts.
  all: repeat (split_if; cbn).
  all: try (split; [repeat constructor|]).
  all: try lia.
  all: try (split; [reflexivity|]); try (split; [|reflexivity]); try reflexivity.
  all: cbn; try tauto.
Qed.

(** C3. With [max_silence] positive, no sleep of a playback is longer than
    [max_silence] seconds. For a line whose leading pause [-code[0]] is above
    1 s and below 32.767 s, the player sleeps once, for the time since the
    previous line capped at [max_silence] (when that time is negative,
    [time.sleep] raises instead), and whatever code it then delivers has the
    leading pause replaced by -1. *)
Theorem long_silence_is_capped_and_neutralized o st loc data c0 rest :
  0 < max_silence o ->
  l_c data = c0 :: rest -> 1000 < - c0 -> - c0 < 32767 ->
  let cap := 1000 * max_silence o in
  let lts' := if lts loc <? 0 then l_ts data else lts loc in
  let pause := l_ts data - lts' in
  let r := playback_line o loc data st in
  Forall (sleeps_at_most cap) (trace (playback o st)) /\
  Forall (delivers (-1 :: rest)) (trace r) /\
  if 0 <=? pause
  then calls is_sleep (trace r) = 1%nat /\
       In (EvSleep (Z.min pause cap)) (trace r)
  else outcome r = Raise ValueError /\ calls is_sleep (trace r) = 0%nat.
Proof.
  intros Hmax Hc Hlo Hhi. cbv zeta. split.
  { apply playback_Forall. intros. by apply playback_line_sleeps. }
  pose proof (playback_line_neutralizes o loc data st c0 rest Hc Hlo Hhi)
    as [Hcode Hsleep].
  split; [exact Hcode|]. cbv zeta in Hsleep.
  set (pause := l_ts data - (if lts loc <? 0 then l_ts data else lts loc)) in *.
  replace (0 <? max_silence o) with true in Hsleep
    by (symmetry; by apply Z.ltb_lt).
  cbn [andb] in Hsleep.
  destruct (1000 * max_silence o <? pause) eqn:Hcap.
  - apply Z.ltb_lt in Hcap.
    replace (0 <=? 1000 * max_silence o) with true in Hsleep
      by (symmetry; apply Z.leb_le; lia).
    replace (0 <=? pause) with true by (symmetry; apply Z.leb_le; lia).
    by rewrite Z.min_r by lia.
  - apply Z.ltb_ge in Hcap. by rewrite Z.min_l by lia.
Qed.

Lemma long_silence_witness :
  0 < max_silence options_gap /\
  Forall (sleeps_at_most 5000) (trace (playback options_gap st_gap)) /\
  trace (playback options_gap st_gap) =
    [EvWireCallback 3%nat 11; EvStationCallback 2%nat "AC";
     EvCodeCallback 7%nat [-500; 60; -60; 180];
     EvWireCallback 3%nat 12; EvStationCallback 2%nat "XY";
     EvPrint (PrReduced 20000 5); EvSleep 5000;
     EvCodeCallback 7%nat [-1; 60; -60; 60];
     EvWireCallback 3%nat 13; EvStationCallback 2%nat "ZZ"].
Proof.
  split; [reflexivity|]. split; [|vm_compute; reflexivity].
  refine (proj1 (long_silence_is_capped_and_neutralized options_gap st_gap
                   (mkLocals 1600000000000 (Some "AC") (Some 11) None)
                   (mkLine 1600000020000 12 "XY" kob.wire [-19700; 60; -60; 60])
                   (-19700) [60; -60; 60] _ eq_refl _ _)); reflexivity.
Defined.

Lemma record_appends st p code source :
  target_file_path (self st) = Some p ->
  record code source st =
  mkRun (mkSt (self st)
           (append_line p (mkLine (clock (world st)) (wire (self st))
                                  (station_id (self st)) source code) (world st)))
        [] (Ok tt).
Proof.
  intros Hp. unfold record. unfold_m. cbn. by rewrite Hp.
Qed.




(** Whatever the options, a line delivers its code with at most the leading
    pause replaced: [speed_factor] has no part in the code handed on. *)
Lemma playback_line_delivers o loc data st :
  Forall (delivers (played_code (l_c data))) (trace (playback_line o loc data st)).
Proof.
  unfold played_code.
  destruct st as [[tgt src sid w scb wcb ccb] wd], data as [ts lw ls lo [|c0 rest]].
  all: line_cases.
  all: repeat constructor.
Qed.

(** C2 does not hold of the code: the loop over the code assigns the scaled
    value to its loop variable and leaves the sequence as it was, so that for
    every speed factor the code delivered for a line is the recorded one (up
    to the leading pause). Replaying [-1000, 60, -60] at [speed_factor = 200]
    should deliver [-500, 30, -30]; a recorder that has a [code_callback]
    attribute delivers the elements unscaled, and a recorder as [__init__]
    builds it delivers nothing: the call of [self.code_callback] raises
    [AttributeError]. *)
Theorem speed_factor_leaves_code_unscaled :
  (forall o loc data st,
     Forall (delivers (played_code (l_c data)))
            (trace (playback_line o loc data st))) /\
  spec_rescale 200 [-1000; 60; -60] = [-500; 30; -30] /\
  speed_loop 200 [-1000; 60; -60] None = Some (-30) /\
  trace (playback options_speed st_speed_cb)
    = [EvCodeCallback 7%nat [-1000; 60; -60]] /\
  outcome (playback options_speed st_speed_cb) = Ok tt /\
  trace (playback options_speed st_speed) = [] /\
  outcome (playback options_speed st_speed) = Raise AttributeError.
Proof.
  split; [exact playback_line_delivers|].
  repeat split; vm_compute; reflexivity.
Qed.

(** ** Further properties of the player *)

Lemma calls_app p t1 t2 : calls p (t1 ++ t2) = (calls p t1 + calls p t2)%nat.
Proof. unfold calls. by rewrite List.filter_app, length_app. Qed.

Lemma calls_zero_Forall p tr :
  Forall (fun e => p e = false) tr -> calls p tr = 0%nat.
Proof.
  unfold calls. induction 1 as [|e tr He _ IH]; [done|].
  cbn. by rewrite He.
Qed.

(** One line, played when [lts] is not after its timestamp: what is
    delivered, and how the iteration ends. *)
Lemma playback_line_sorted o loc data st :
  (if lts loc <? 0 then l_ts data else lts loc) <= l_ts data ->
  let r := playback_line o loc data st in
  let d := delivery o (code_callback (self st)) in
  List.filter is_code_callback (trace r) = delivered d [data] /\
  match outcome r with
  | Ok loc' =>
      lts loc' = (if has_code data then l_ts data
                  else if lts loc <? 0 then l_ts data else lts loc) /\
      (if has_code data then exists cb, d = Ok cb else True)
  | Raise e => has_code data = true /\ d = Raise e
  end.
Proof.
  intros Hts. unfold delivery, delivered, has_code, played_code.
  destruct st as [[tgt src sid w scb wcb ccb] wd], data as [ts lw ls lo [|c0 rest]].
  all: cbn [l_ts l_c self code_callback List.filter map] in *.
  all: line_cases.
  all: try (exfalso; lia).
  all: repeat split; eauto; try done.
Qed.

Lemma delivered_cons d data lines :
  delivered d (data :: lines) = delivered d [data] ++ delivered d lines.
Proof.
  unfold delivered. destruct d as [[f|]|e]; try done.
  cbn. by destruct (has_code data).
Qed.

Lemma playback_loop_sorted o lines : forall loc st,
  ts_sorted lines -> lts_below loc lines ->
  let r := playback_loop o loc lines st in
  let d := delivery o (code_callback (self st)) in
  List.filter is_code_callback (trace r) = delivered d lines /\
  match outcome r with
  | Ok _ => if existsb has_code lines then exists cb, d = Ok cb else True
  | Raise e => existsb has_code lines = true /\ d = Raise e
  end.
Proof.
  induction lines as [|data lines IH]; intros loc st Hsorted Hlts; cbv zeta.
  - cbn. by destruct (delivery o (code_callback (self st))) as [[f|]|e].
  - destruct Hsorted as [Hhead Hsorted].
    assert ((if lts loc <? 0 then l_ts data else lts loc) <= l_ts data) as Hts.
    { destruct (lts loc <? 0) eqn:Hneg; [lia|].
      destruct Hlts as [Hlts|Hlts]; [apply Z.ltb_ge in Hneg; lia|].
      by inversion Hlts. }
    pose proof (playback_line_sorted o loc data st Hts) as [Hcode Hout].
    pose proof (playback_line_frame o loc data st) as [Hframe _].
    rewrite delivered_cons. cbn [playback_loop existsb]. unfold bind.
    destruct (playback_line o loc data st) as [s1 t1 [loc1|e]];
      cbn in Hcode, Hout, Hframe.
    + destruct Hout as [Hlts1 Hd].
      assert (lts_below loc1 lines) as Hlts'.
      { right. rewrite Hlts1.
        destruct (has_code data); [done|].
        destruct (lts loc <? 0) eqn:Hneg; [done|].
        destruct Hlts as [Hlts|Hlts]; [apply Z.ltb_ge in Hneg; lia|].
        by inversion Hlts. }
      pose proof (IH loc1 s1 Hsorted Hlts') as [Hcode' Hout'].
      destruct Hframe as (_ & _ & _ & _ & _ & Hattr). rewrite Hattr in Hcode', Hout'.
      destruct (playback_loop o loc1 lines s1) as [s2 t2 o2]; cbn in *.
      split; [by rewrite List.filter_app, Hcode, Hcode'|].
      destruct o2 as [loc2|e2].
      * destruct (has_code data); [done|]. exact Hout'.
      * destruct Hout' as [Hex Hd']. split; [|done]. rewrite Hex.
        by rewrite orb_true_r.
    + destruct Hout as [Hhas Hd]. cbn. split.
      * rewrite Hcode. rewrite Hd. by unfold delivered.
      * rewrite Hhas. done.
Qed.

(** A log with timestamps in order: the code delivered and the outcome. *)
Lemma playback_sorted o st p lines :
  source_file_path (self st) = Some p ->
  fs (world st) !! p = Some lines ->
  ts_sorted lines ->
  let r := playback o st in
  let d := delivery o (code_callback (self st)) in
  List.filter is_code_callback (trace r) = delivered d lines /\
  outcome r = if existsb has_code lines
              then match d with Ok _ => Ok tt | Raise e => Raise e end
              else Ok tt.
Proof.
  intros Hp Hlines Hsorted. cbv zeta. unfold playback. unfold_m.
  rewrite Hp, Hlines.
  assert (lts_below init_locals lines) as Hlts by (left; reflexivity).
  pose proof (playback_loop_sorted o lines init_locals st Hsorted Hlts)
    as [Hcode Hout].
  destruct (playback_loop o init_locals lines st) as [s1 t1 [loc1|e]]; cbn in *.
  - rewrite app_nil_r. split; [done|].
    destruct (existsb has_code lines); [|done]. by destruct Hout as [cb ->].
  - split; [done|]. destruct Hout as [-> ->]. done.
Qed.


Lemma log_gap_sorted : ts_sorted log_gap.
Proof. cbn. repeat split; repeat constructor; cbn; lia. Qed.







Lemma playback_line_context_callbacks o loc data st :
  let r := playback_line o loc data st in
  List.filter is_wire_callback (trace r)
  = match opt_wire_callback o with
    | Some f => map (EvWireCallback f) (changes_from (lwire loc) [l_w data])
    | None => []
    end /\
  List.filter is_station_callback (trace r)
  = match opt_station_callback o with
    | Some f => map (EvStationCallback f) (changes_from (lstation loc) [l_s data])
    | None => []
    end /\
  match outcome r with
  | Ok loc' => lwire loc' = Some (l_w data) /\ lstation loc' = Some (l_s data)
  | Raise _ => True
  end.
Proof.
  destruct st as [[tgt src sid w scb wcb ccb] wd], data as [ts lw ls lo [|c0 rest]].
  all: cbn [l_w l_s changes_from].
  all: line_cases.
  all: repeat split; try done.
  all: repeat match goal with
              | H : bool_decide _ = true |- _ => apply bool_decide_eq_true in H
              end; congruence.
Qed.

Lemma playback_loop_context_callbacks o lines : forall loc st loc',
  let r := playback_loop o loc lines st in
  outcome r = Ok loc' ->
  List.filter is_wire_callback (trace r)
  = match opt_wire_callback o with
    | Some f => map (EvWireCallback f) (changes_from (lwire loc) (map l_w lines))
    | None => []
    end /\
  List.filter is_station_callback (trace r)
  = match opt_station_callback o with
    | Some f => map (EvStationCallback f) (changes_from (lstation loc) (map l_s lines))
    | None => []
    end.
Proof.
  induction lines as [|data lines IH]; intros loc st loc'; cbv zeta.
  - cbn. intros _. by destruct (opt_wire_callback o), (opt_station_callback o).
  - cbn [playback_loop map changes_from]. unfold bind.
    pose proof (playback_line_context_callbacks o loc data st) as (Hw & Hs & Hloc).
    cbn [changes_from] in Hw, Hs. rewrite app_nil_r in Hw, Hs.
    destruct (playback_line o loc data st) as [s1 t1 [loc1|e]]; cbn in *; [|done].
    destruct Hloc as [Hlw Hls].
    pose proof (IH loc1 s1 loc') as IH'. cbv zeta in IH'.
    destruct (playback_loop o loc1 lines s1) as [s2 t2 o2]; cbn in *.
    intros Hok. destruct (IH' Hok) as [Hw' Hs'].
    rewrite !List.filter_app, Hw, Hs, Hw', Hs', Hlw, Hls.
    destruct (opt_wire_callback o), (opt_station_callback o);
      by rewrite ?map_app.
Qed.

(** X4. When [playback] returns, the wire callback has been called once for
    every line whose wire differs from the wire of the line before it, in
    file order, and the station callback likewise: the first line always
    fires both, a run of lines on one wire or from one station fires once,
    and heartbeats count like any other line. *)
Theorem playback_announces_changes o st p lines f_wire f_station :
  source_file_path (self st) = Some p ->
  fs (world st) !! p = Some lines ->
  opt_wire_callback o = Some f_wire ->
  opt_station_callback o = Some f_station ->
  outcome (playback o st) = Ok tt ->
  List.filter is_wire_callback (trace (playback o st))
  = map (EvWireCallback f_wire) (changes_from None (map l_w lines)) /\
  List.filter is_station_callback (trace (playback o st))
  = map (EvStationCallback f_station) (changes_from None (map l_s lines)).
Proof.
  intros Hp Hlines Hw Hs. unfold playback. unfold_m. rewrite Hp, Hlines.
  pose proof (playback_loop_context_callbacks o lines init_locals st) as Hloop.
  cbv zeta in Hloop.
  destruct (playback_loop o init_locals lines st) as [s1 t1 [loc1|e]]; cbn in *.
  - intros _. rewrite app_nil_r. destruct (Hloop loc1 eq_refl) as [H1 H2].
    by rewrite H1, H2, Hw, Hs.
  - discriminate.
Qed.

Lemma playback_announces_changes_witness :
  outcome (playback options_gap st_gap) = Ok tt /\
  List.filter is_wire_callback (trace (playback options_gap st_gap))
  = [EvWireCallback 3%nat 11; EvWireCallback 3%nat 12; EvWireCallback 3%nat 13].
Proof.
  split; [vm_compute; reflexivity|].
  refine (proj1 (playback_announces_changes options_gap st_gap "test.json" log_gap
                   3%nat 2%nat eq_refl _ eq_refl eq_refl _));
    vm_compute; reflexivity.
Defined.

Lemma playback_line_short_pause o loc data st :
  long_pause data = false ->
  let r := playback_line o loc data st in
  Forall (fun e => is_sleep e = false) (trace r) /\
  Forall (delivers (l_c data)) (trace r) /\
  outcome r <> Raise ValueError.
Proof.
  unfold long_pause. intros Hshort.
  destruct st as [[tgt src sid w scb wcb ccb] wd], data as [ts lw ls lo [|c0 rest]].
  all: cbn [l_c] in *.
  all: unfold playback_line; unfold_m; cbn; rewrite ?Hshort.
  all: repeat (split_if; cbn).
  all: repeat split; repeat constructor; done.
Qed.

Lemma playback_loop_short_pauses o lines : forall loc st,
  Forall (fun l => long_pause l = false) lines ->
  let r := playback_loop o loc lines st in
  Forall (fun e => is_sleep e = false) (trace r) /\
  Forall (fun e => exists l, In l lines /\ delivers (l_c l) e) (trace r) /\
  outcome r <> Raise ValueError.
Proof.
  induction lines as [|data lines IH]; intros loc st Hall; cbv zeta.
  - cbn. repeat split; try constructor. done.
  - apply Forall_cons in Hall as [Hdata Hall].
    pose proof (playback_line_short_pause o loc data st Hdata) as (H1 & H2 & H3).
    cbn [playback_loop]. unfold bind.
    destruct (playback_line o loc data st) as [s1 t1 [loc1|e]]; cbn in *.
    + pose proof (IH loc1 s1 Hall) as (H1' & H2' & H3').
      destruct (playback_loop o loc1 lines s1) as [s2 t2 o2]; cbn in *.
      split; [by apply Forall_app|]. split; [|done].
      apply Forall_app. split.
      * eapply Forall_impl; [exact H2|]. intros e He. exists data. by split; [left|].
      * eapply Forall_impl; [exact H2'|]. intros e (l & Hl & He). exists l.
        by split; [right|].
    + split; [done|]. split; [|done].
      eapply Forall_impl; [exact H2|]. intros e' He. exists data. by split; [left|].
Qed.

(** X5. A log in which no line has a long leading pause (above 1 s and below
    32.767 s) is played without a single sleep, whatever its timestamps, and
    every code delivered is the code of a line of the log, unaltered;
    without [list_data] (whose conversion of the timestamps can raise it),
    [playback] cannot raise [ValueError]. *)
Theorem playback_short_pauses_never_sleep o st p lines :
  list_data o = false ->
  source_file_path (self st) = Some p ->
  fs (world st) !! p = Some lines ->
  Forall (fun l => long_pause l = false) lines ->
  let r := playback o st in
  calls is_sleep (trace r) = 0%nat /\
  Forall (fun e => exists l, In l lines /\ delivers (l_c l) e) (trace r) /\
  outcome r <> Raise ValueError.
Proof.
  intros _ Hp Hlines Hall. cbv zeta. unfold playback. unfold_m. rewrite Hp, Hlines.
  pose proof (playback_loop_short_pauses o lines init_locals st Hall)
    as (H1 & H2 & H3).
  destruct (playback_loop o init_locals lines st) as [s1 t1 [loc1|e]]; cbn in *.
  - rewrite app_nil_r. split; [by apply calls_zero_Forall|]. done.
  - split; [by apply calls_zero_Forall|]. split; [done|]. congruence.
Qed.

Lemma playback_short_pauses_witness :
  Forall (fun l => long_pause l = false) log_speed /\
  calls is_sleep (trace (playback options_speed st_speed_cb)) = 0%nat.
Proof.
  assert (Forall (fun l => long_pause l = false) log_speed) as Hshort
    by (repeat constructor).
  split; [exact Hshort|].
  refine (proj1 (playback_short_pauses_never_sleep options_speed st_speed_cb
                   "test.json" log_speed eq_refl eq_refl _ Hshort)).
  vm_compute; reflexivity.
Defined.

(** X6. [playback] writes nothing, also when it raises: every file is as it
    was before, and so are the recorder's target and source path, its two
    callbacks and its [code_callback] attribute. *)
Theorem playback_never_writes o st :
  let r := playback o st in
  fs (world (final r)) = fs (world st) /\
  target_file_path (self (final r)) = target_file_path (self st) /\
  source_file_path (self (final r)) = source_file_path (self st) /\
  station_id_callback (self (final r)) = station_id_callback (self st) /\
  wire_callback (self (final r)) = wire_callback (self st) /\
  code_callback (self (final r)) = code_callback (self st).
Proof.
  cbv zeta. unfold playback. unfold_m.
  destruct (source_file_path (self st)) as [p|] eqn:Hp; [|done].
  destruct (fs (world st) !! p) as [lines|] eqn:Hlines; [|done].
  pose proof (playback_loop_frame o lines init_locals st) as [Hf _].
  destruct (playback_loop o init_locals lines st) as [s1 t1 [loc1|e]]; cbn in *.
  all: unfold same_objects in Hf; intuition congruence.
Qed.

Lemma playback_line_lists o loc data st :
  List.filter is_line_print (trace (playback_line o loc data st))
  = if list_data o then [EvPrint (PrLine (l_ts data) data)] else [].
Proof.
  destruct st as [[tgt src sid w scb wcb ccb] wd], data as [ts lw ls lo [|c0 rest]].
  all: line_cases.
  all: done.
Qed.

(** X7. With [list_data] set, a playback that returns has echoed every line
    of the log once, in file order, heartbeats included. *)
Theorem playback_lists_every_line o st p lines :
  source_file_path (self st) = Some p ->
  fs (world st) !! p = Some lines ->
  list_data o = true ->
  outcome (playback o st) = Ok tt ->
  List.filter is_line_print (trace (playback o st))
  = map (fun l => EvPrint (PrLine (l_ts l) l)) lines.
Proof.
  intros Hp Hlines Hld. unfold playback. unfold_m. rewrite Hp, Hlines.
  assert (forall loc s loc',
            outcome (playback_loop o loc lines s) = Ok loc' ->
            List.filter is_line_print (trace (playback_loop o loc lines s))
            = map (fun l => EvPrint (PrLine (l_ts l) l)) lines) as Hloop.
  { clear Hlines. induction lines as [|data lines IH]; intros loc s loc'; [done|].
    cbn [playback_loop map]. unfold bind.
    pose proof (playback_line_lists o loc data s) as Hline. rewrite Hld in Hline.
    destruct (playback_line o loc data s) as [s1 t1 [loc1|e]];
      cbn [final trace outcome] in *; [|done].
    pose proof (IH loc1 s1 loc') as IH'.
    destruct (playback_loop o loc1 lines s1) as [s2 t2 o2];
      cbn [final trace outcome] in *.
    intros Hok. by rewrite List.filter_app, Hline, (IH' Hok). }
  pose proof (Hloop init_locals st) as Hinit.
  destruct (playback_loop o init_locals lines st) as [s1 t1 [loc1|e]];
    cbn [final trace outcome] in *.
  - intros _. rewrite app_nil_r. by apply (Hinit loc1).
  - discriminate.
Qed.

Lemma playback_lists_every_line_witness :
  list_data options_list = true /\
  List.filter is_line_print (trace (playback options_list st_gap))
  = map (fun l => EvPrint (PrLine (l_ts l) l)) log_gap.
Proof.
  split; [reflexivity|].
  refine (playback_lists_every_line options_list st_gap "test.json" log_gap
            eq_refl _ eq_refl _); vm_compute; reflexivity.
Defined.

(** ** Further properties of the recorder *)

Lemma record_at_appends r w p c :
  target_file_path r = Some p ->
  record_at c (mkSt r w)
  = mkRun (mkSt r (append_line p (line_of r c) (set_clock (rc_now c) w))) [] (Ok tt).
Proof.
  intros Htgt. unfold record_at, bind, on_world, modify.
  by rewrite (record_appends _ p).
Qed.

Lemma record_all_appends r p cs : forall w,
  target_file_path r = Some p ->
  let run := record_all cs (mkSt r w) in
  outcome run = Ok tt /\ trace run = [] /\ self (final run) = r /\
  default [] (fs (world (final run)) !! p)
  = default [] (fs w !! p) ++ map (line_of r) cs /\
  delete p (fs (world (final run))) = delete p (fs w).
Proof.
  induction cs as [|c cs IH]; intros w Htgt; cbv zeta.
  - cbn. by rewrite app_nil_r.
  - cbn [record_all]. unfold bind. rewrite (record_at_appends r w p c Htgt).
    pose proof (IH (append_line p (line_of r c) (set_clock (rc_now c) w)) Htgt)
      as (Hok & Htr & Hself & Hfile & Hrest).
    destruct (record_all cs _) as [s2 t2 o2]; cbn in *. subst t2 o2.
    repeat split; try done.
    + rewrite Hfile, lookup_insert_eq. cbn. by rewrite <- app_assoc.
    + by rewrite Hrest, delete_insert_eq.
Qed.

(** X8. The log is append-only. A sequence of calls of [record] on a recorder
    with a target file returns, leaves the recorder as it is, and leaves the
    target file holding the lines it held before followed by one line per
    call, in call order, each with the recorder's wire and station, the
    clock reading, the source and the code of its call; no other file is
    touched. Without a target file the first call raises [TypeError] and no
    file is written. *)
Theorem record_appends_in_order r w cs :
  let run := record_all cs (mkSt r w) in
  match target_file_path r with
  | Some p =>
      outcome run = Ok tt /\ trace run = [] /\ self (final run) = r /\
      default [] (fs (world (final run)) !! p)
      = default [] (fs w !! p) ++ map (line_of r) cs /\
      delete p (fs (world (final run))) = delete p (fs w)
  | None =>
      match cs with
      | [] => outcome run = Ok tt
      | _ :: _ => outcome run = Raise TypeError
      end /\
      fs (world (final run)) = fs w
  end.
Proof.
  cbv zeta. destruct (target_file_path r) as [p|] eqn:Htgt.
  - by apply record_all_appends.
  - destruct cs as [|c cs]; [done|].
    cbn [record_all]. unfold record_at, record. unfold_m. cbn.
    by rewrite Htgt.
Qed.

Lemma line_of_sorted r cs : readings_sorted cs -> ts_sorted (map (line_of r) cs).
Proof.
  induction cs as [|c cs IH]; cbn; [done|].
  intros [Hhead Hs]. split; [|by apply IH].
  apply Forall_map. exact Hhead.
Qed.

Lemma filter_has_code_line_of r cs :
  map (fun l => played_code (l_c l)) (List.filter has_code (map (line_of r) cs))
  = map played_code (List.filter nonempty (map rc_code cs)).
Proof.
  induction cs as [|[t code s] cs IH]; [done|].
  cbn [map List.filter]. unfold has_code at 1.
  cbn [line_of l_c rc_code rc_now rc_source].
  destruct code; cbn [map l_c nonempty]; by rewrite IH.
Qed.

(** X9. Round trip of a session. Events recorded to a fresh file at clock
    readings that do not decrease, and then played from that file (speed
    factor not 0, recorder with a [code_callback] attribute), come back in
    the order recorded: [playback] returns and delivers the code of every
    event that has code, with long leading pauses replaced by -1. *)
Theorem recorded_session_replays_in_order r w p cs o f :
  target_file_path r = Some p ->
  source_file_path r = Some p ->
  fs w !! p = None ->
  cs <> [] ->
  readings_sorted cs ->
  code_callback r = Some f ->
  is_Some (opt_code_callback o) ->
  speed_factor o <> 0 ->
  let logged := final (record_all cs (mkSt r w)) in
  let run := playback o logged in
  outcome run = Ok tt /\
  List.filter is_code_callback (trace run)
  = map (EvCodeCallback f)
        (map played_code (List.filter nonempty (map rc_code cs))).
Proof.
  intros Htgt Hsrc Hnew Hne Hsorted Hattr [g Hg] Hsf. cbv zeta.
  pose proof (record_all_appends r p cs w Htgt) as (_ & _ & Hself & Hfile & _).
  cbv zeta in *. rewrite Hnew in Hfile. cbn in Hfile.
  destruct (record_all cs (mkSt r w)) as [[r' w'] t1 o1].
  cbn [final self world] in *. subst r'.
  destruct (fs w' !! p) as [lines|] eqn:Hlines; cbn in Hfile.
  2: { destruct cs; [done|discriminate]. }
  subst lines.
  pose proof (playback_sorted o (mkSt r w') p _ Hsrc Hlines
                (line_of_sorted r cs Hsorted)) as [Hcode Hout].
  cbv zeta in *. unfold delivery in *. cbn [self] in *. rewrite Hattr, Hg in *.
  apply Z.eqb_neq in Hsf. rewrite Hsf, andb_false_r in *.
  split.
  - rewrite Hout. by destruct (existsb has_code (map (line_of r) cs)).
  - rewrite Hcode. unfold delivered. rewrite <- (filter_has_code_line_of r).
    by rewrite map_map.
Qed.

Lemma recorded_session_witness :
  readings_sorted session_calls /\
  List.filter is_code_callback
    (trace (playback options_cb (final (record_all session_calls st_test))))
  = [EvCodeCallback 7%nat [-500; 60; -60; 180];
     EvCodeCallback 7%nat [-1; 60; -1000; 1]].
Proof.
  assert (readings_sorted session_calls) as Hsorted
    by (cbn; repeat split; repeat constructor; cbn; lia).
  split; [exact Hsorted|].
  refine (proj2 (recorded_session_replays_in_order recorder_test_cb world0
                   "test.json" session_calls options_cb 7%nat
                   eq_refl eq_refl eq_refl _ Hsorted eq_refl _ _)).
  - discriminate.
  - eexists; reflexivity.
  - discriminate.
Defined.

(** ** Further properties of the router *)

Lemma packet_lockout kc c st :
  is_packet c = true -> connected st = true -> internet_active st = true ->
  let r := run_call kc c st in
  connected (final r) = true /\ internet_active (final r) = true /\
  calls is_local_record (trace r) = 0%nat /\
  calls is_new_sender (trace r) = 0%nat.
Proof.
  intros Hp Hc Hia. destruct c as [code|code|code|id|]; try discriminate Hp.
  all: cbn [run_call]; router_cases st code.
  all: destruct cc, (kc_Remote kc); cbn; try done.
  all: try (destruct tgt; cbn; done).
Qed.

(** X10. Once a remote station holds the line of a connected station, no
    sequence of packets releases it: after any packets from key, keyboard
    and wire the station is still connected and [internet_active] is still
    true, and none of the local packets was recorded or announced a new
    sender. (Only [toggle_connect] and [reset_wire_state] clear the flag.) *)
Theorem remote_sender_locks_out_local_packets kc cs : forall st,
  forallb is_packet cs = true ->
  connected st = true ->
  internet_active st = true ->
  let r := run_calls kc cs st in
  connected (final r) = true /\ internet_active (final r) = true /\
  calls is_local_record (trace r) = 0%nat /\
  calls is_new_sender (trace r) = 0%nat.
Proof.
  induction cs as [|c cs IH]; intros st Hall Hc Hia; cbv zeta.
  - done.
  - cbn in Hall. apply andb_true_iff in Hall as [Hp Hall].
    pose proof (packet_lockout kc c st Hp Hc Hia) as (H1 & H2 & H3 & H4).
    cbn [run_calls]. unfold bind.
    destruct (run_call kc c st) as [s1 t1 [[]|e]]; cbn [final trace outcome] in *;
      [|done].
    pose proof (IH s1 Hall H1 H2) as (H1' & H2' & H3' & H4').
    destruct (run_calls kc cs s1) as [s2 t2 o2]; cbn [final trace outcome] in *.
    rewrite !calls_app, H3, H4, H3', H4'. done.
Qed.

Lemma remote_sender_locks_out_witness :
  internet_active st_remote = true /\
  calls is_local_record (trace (run_calls kc0 packets_sample st_remote)) = 0%nat.
Proof.
  split; [reflexivity|].
  exact (proj1 (proj2 (proj2
    (remote_sender_locks_out_local_packets kc0 packets_sample st_remote
       eq_refl eq_refl eq_refl)))).
Defined.

Lemma packet_keeps_sync kc c st :
  is_packet c = true -> in_sync st -> in_sync (final (run_call kc c st)).
Proof.
  unfold in_sync. intros Hp Hs.
  destruct c as [code|code|code|id|]; try discriminate Hp.
  all: cbn [run_call]; router_cases st code.
  all: destruct cc, cn, ia, (kc_Remote kc), (kc_Local kc); cbn.
  all: repeat (case_bool_decide; cbn); try done.
  all: try (destruct tgt; cbn; done).
Qed.

Lemma call_keeps_sync kc c st :
  in_sync st -> in_sync (final (run_call kc c st)).
Proof.
  intros Hs. destruct (is_packet c) eqn:Hp;
    [exact (packet_keeps_sync kc c st Hp Hs)|].
  unfold in_sync in *. destruct c as [code|code|code|id|]; try discriminate Hp.
  - cbn [run_call]. destruct (decide (id = sender_ID st)) as [->|Hne].
    + by rewrite update_sender_recognized.
    + rewrite update_sender_new by done. cbn [final].
      destruct (myRecorder st) eqn:Hrec; cbn; rewrite ?Hrec; done.
  - cbn [run_call]. unfold toggle_connect. unfold_m.
    destruct st as [cn cc ia sid v rec w]. cbn in *. destruct cn, cc; cbn; done.
Qed.

(** X11. The recorder's station follows the recognized sender: if the
    recorder holds [sender_ID] as its station (as it does when [kobmain]
    starts), it still does after any sequence of packets, sender
    announcements and clicks on Connect, also when a call raises. *)
Theorem recorder_station_follows_sender kc cs : forall st,
  in_sync st -> in_sync (final (run_calls kc cs st)).
Proof.
  induction cs as [|c cs IH]; intros st Hs; [done|].
  cbn [run_calls]. unfold bind.
  pose proof (call_keeps_sync kc c st Hs) as H1.
  destruct (run_call kc c st) as [s1 t1 [[]|e]]; cbn [final] in *; [|done].
  pose proof (IH s1 H1) as H2.
  by destruct (run_calls kc cs s1) as [s2 t2 o2].
Qed.

Lemma recorder_station_follows_sender_witness :
  in_sync st_init /\
  in_sync (final (run_calls kc0
                    (CallToggleConnect :: CallUpdateSender "XY" :: packets_sample)
                    st_init)).
Proof.
  assert (in_sync st_init) as Hs by reflexivity.
  split; [exact Hs|].
  exact (recorder_station_follows_sender kc0
           (CallToggleConnect :: CallUpdateSender "XY" :: packets_sample)
           st_init Hs).
Defined.

(** X12. The circuit after a local packet is decided by the packet's last
    element. After [from_key] the circuit closer is closed iff the packet
    ends in +1, so an empty packet from the key opens the circuit; after
    [from_keyboard] it is closed iff the packet ends in +1, except that an
    empty packet leaves it as it was. *)
Theorem circuit_follows_trailing_element kc st code :
  recorder_writable st = true ->
  let rk := from_key kc code st in
  let rb := from_keyboard kc code st in
  outcome rk = Ok tt /\ outcome rb = Ok tt /\
  circuit_closer (final rk) = ends_with_1 code /\
  circuit_closer (final rb)
  = match code with
    | [] => circuit_closer st
    | _ => ends_with_1 code
    end.
Proof.
  unfold recorder_writable. intros Hrec.
  assert (forall a b : bool,
            match code with [] => a | _ => b end
            = match last code with None => a | Some _ => b end) as Hmatch.
  { intros a b. destruct code as [|c0 rest]; [done|].
    destruct (last (c0 :: rest)) eqn:Hlast; [done|].
    by apply last_None in Hlast. }
  cbv zeta. rewrite Hmatch.
  destruct st as [cn cc ia sid v [[tgt src rsid rw scb wcb ccb]|] w];
    cbn [myRecorder Recorder.target_file_path] in Hrec.
  all: unfold from_key, from_keyboard, ends_without_1, ends_with_1.
  all: try (destruct tgt; [|discriminate Hrec]).
  all: (destruct (last code) as [x|]; [destruct (x =? 1)|]).
  all: unfold_m; cbn.
  all: destruct cc, cn, ia, (kc_Remote kc), (kc_Local kc); cbn.
  all: repeat (case_bool_decide; cbn); done.
Qed.

Lemma circuit_follows_trailing_element_witness :
  recorder_writable st_init = true /\
  circuit_closer (final (from_key kc0 [] st_init)) = false /\
  circuit_closer (final (from_keyboard kc0 [] st_init)) = true.
Proof.
  split; [reflexivity|].
  pose proof (circuit_follows_trailing_element kc0 st_init [] eq_refl)
    as (_ & _ & Hk & Hb).
  split; [exact Hk|exact Hb].
Defined.

(** X13. A local packet that is heard is logged under the station's own id.
    When the recorder is in step with the recognized sender, no remote
    station is sending and the circuit is open for the packet, [from_key]
    and [from_keyboard] return with [sender_ID] and the recorder's station
    set to [kc.config.station], and the log has grown by exactly one line:
    the clock reading, the recorder's wire, the own station, source [local]
    and the code. *)
Theorem heard_packet_is_logged_under_own_station kc st r p code :
  myRecorder st = Some r ->
  Recorder.target_file_path r = Some p ->
  in_sync st ->
  internet_active st = false ->
  keyed_open st code = true ->
  let rk := from_key kc code st in
  let rb := from_keyboard kc code st in
  let logged :=
    default [] (fs (kobmain.world st) !! p) ++ [local_line kc st r code] in
  outcome rk = Ok tt /\ outcome rb = Ok tt /\
  sender_ID (final rk) = kc_station kc /\ sender_ID (final rb) = kc_station kc /\
  fs (kobmain.world (final rk)) !! p = Some logged /\
  fs (kobmain.world (final rb)) !! p = Some logged /\
  myRecorder (final rk) = Some (Recorder.set_station_id (kc_station kc) r) /\
  myRecorder (final rb) = Some (Recorder.set_station_id (kc_station kc) r).
Proof.
  unfold keyed_open, local_line, in_sync. intros Hrec Htgt Hsync Hia Hopen.
  destruct st as [cn cc ia sid v rec w]. cbn in Hrec, Hsync, Hia, Hopen |- *.
  subst rec ia.
  destruct r as [tgt src rsid rw scb wcb ccb]. cbn in Htgt, Hsync. subst tgt rsid.
  unfold from_key, from_keyboard, ends_without_1, ends_with_1 in *.
  destruct (last code) as [x|]; [destruct (x =? 1)|]; cbn in Hopen.
  all: destruct cc; try discriminate Hopen.
  all: unfold_m; cbn.
  all: destruct cn, (kc_Remote kc), (kc_Local kc); cbn.
  all: repeat (case_bool_decide; cbn).
  all: unfold append_line, Recorder.set_station_id; cbn.
  all: rewrite ?lookup_insert_eq; subst; done.
Qed.

Lemma heard_packet_witness :
  in_sync st_init /\
  fs (kobmain.world (final (from_key kc0 [-120; 60] st_init)))
    !! "MKOB.1600000000000.json"
  = Some [mkLine 1600000000000 11 "AC" kob.local [-120; 60]].
Proof.
  assert (in_sync st_init) as Hs by reflexivity.
  split; [exact Hs|].
  pose proof (heard_packet_is_logged_under_own_station kc0 st_init recorder0
                "MKOB.1600000000000.json" [-120; 60]
                eq_refl eq_refl Hs eq_refl eq_refl) as (_ & _ & _ & _ & Hk & _).
  exact Hk.
Defined.

(** X14. A packet from the wire that is passed on (connected, circuit closed)
    is logged with source [wire] under the station the recorder holds at
    that moment - the packet itself names no sender, and [from_internet]
    does not touch [sender_ID] or the recorder: the log grows by exactly
    that one line and no other file changes. *)
Theorem wire_packet_is_logged_under_announced_sender st r p code :
  myRecorder st = Some r ->
  Recorder.target_file_path r = Some p ->
  connected st = true ->
  circuit_closer st = true ->
  let run := from_internet code st in
  outcome run = Ok tt /\
  fs (kobmain.world (final run)) !! p
  = Some (default [] (fs (kobmain.world st) !! p)
          ++ [mkLine (clock (kobmain.world st)) (Recorder.wire r)
                     (Recorder.station_id r) kob.wire code]) /\
  delete p (fs (kobmain.world (final run))) = delete p (fs (kobmain.world st)) /\
  myRecorder (final run) = Some r /\
  sender_ID (final run) = sender_ID st.
Proof.
  intros Hrec Htgt Hcn Hcc.
  destruct st as [cn cc ia sid v rec w]. cbn in Hrec, Hcn, Hcc |- *. subst rec cn cc.
  destruct r as [tgt src rsid rw scb wcb ccb]. cbn in Htgt. subst tgt.
  unfold from_internet, ends_with_1.
  destruct (last code) as [x|]; [destruct (x =? 1)|].
  all: unfold_m; cbn.
  all: unfold append_line; cbn.
  all: by rewrite lookup_insert_eq, delete_insert_eq.
Qed.

Lemma wire_packet_logged_witness :
  connected st_remote = true /\
  sender_ID (final (from_internet [-300; 60] st_remote)) = "XY".
Proof.
  split; [reflexivity|].
  pose proof (wire_packet_is_logged_under_announced_sender st_remote recorder0
                "MKOB.1600000000000.json" [-300; 60]
                eq_refl eq_refl eq_refl eq_refl) as (_ & _ & _ & _ & Hid).
  exact Hid.
Defined.

(** X15. Two clicks on Connect in a row: [connected] is back where it was,
    [internet_active] is false whatever it was, the circuit closer is
    untouched, and the wire was connected once and disconnected once. *)
Theorem toggle_connect_twice kc st :
  let r := (toggle_connect kc ;;; toggle_connect kc) st in
  outcome r = Ok tt /\
  connected (final r) = connected st /\
  internet_active (final r) = false /\
  circuit_closer (final r) = circuit_closer st /\
  calls is_connect (trace r) = 1%nat /\
  calls is_disconnect (trace r) = 1%nat.
Proof.
  destruct st as [cn cc ia sid v rec w].
  unfold toggle_connect. unfold_m. cbn.
  destruct cn, cc, ia; cbn; done.
Qed.



Lemma packet_frame kc c st :
  is_packet c = true ->
  let s1 := final (run_call kc c st) in
  connected s1 = connected st /\
  option_map Recorder.wire (myRecorder s1) = option_map Recorder.wire (myRecorder st) /\
  option_map Recorder.target_file_path (myRecorder s1)
  = option_map Recorder.target_file_path (myRecorder st) /\
  clock (kobmain.world s1) = clock (kobmain.world st).
Proof.
  intros Hp. destruct c as [code|code|code|id|]; try discriminate Hp.
  all: cbn [run_call]; router_cases st code.
  all: destruct cc, cn, ia, (kc_Remote kc), (kc_Local kc); cbn.
  all: repeat (case_bool_decide; cbn); try done.
  all: try (destruct tgt; cbn; done).
Qed.

(** X18. Packets neither connect nor disconnect the station nor retarget the
    recorder: after any sequence of packets from key, keyboard and wire,
    [connected], the recorder's wire and its target path are what they
    were. *)
Theorem packets_leave_connection_and_recorder_target kc cs : forall st,
  forallb is_packet cs = true ->
  let s1 := final (run_calls kc cs st) in
  connected s1 = connected st /\
  option_map Recorder.wire (myRecorder s1) = option_map Recorder.wire (myRecorder st) /\
  option_map Recorder.target_file_path (myRecorder s1)
  = option_map Recorder.target_file_path (myRecorder st) /\
  clock (kobmain.world s1) = clock (kobmain.world st).
Proof.
  induction cs as [|c cs IH]; intros st Hall; cbv zeta; [done|].
  cbn in Hall. apply andb_true_iff in Hall as [Hp Hall].
  pose proof (packet_frame kc c st Hp) as (H1 & H2 & H3 & H4).
  cbn [run_calls]. unfold bind.
  destruct (run_call kc c st) as [s1 t1 [[]|e]]; cbn [final trace outcome] in *;
    [|done].
  pose proof (IH s1 Hall) as (H1' & H2' & H3' & H4').
  destruct (run_calls kc cs s1) as [s2 t2 o2]; cbn [final trace outcome] in *.
  repeat split; congruence.
Qed.

Lemma packets_leave_connection_witness :
  forallb is_packet packets_sample = true /\
  connected (final (run_calls kc0 packets_sample st_keying)) = true.
Proof.
  split; [reflexivity|].
  exact (proj1 (packets_leave_connection_and_recorder_target kc0 packets_sample
                  st_keying eq_refl)).
Defined.

(** ** The time slept by the player *)

Lemma slept_ms_app t1 t2 : slept_ms (t1 ++ t2) = slept_ms t1 + slept_ms t2.
Proof.
  unfold slept_ms. induction t1 as [|e t1 IH]; [done|].
  cbn. destruct e; rewrite ?IH; lia.
Qed.

Lemma playback_line_slept o loc data st :
  let r := playback_line o loc data st in
  let gap := l_ts data - (if lts loc <? 0 then l_ts data else lts loc) in
  0 <= slept_ms (trace r) /\
  (0 < max_silence o ->
   slept_ms (trace r) <= if long_pause data then 1000 * max_silence o else 0) /\
  (0 <= gap -> slept_ms (trace r) <= if has_code data then gap else 0).
Proof.
  unfold long_pause, has_code.
  destruct st as [[tgt src sid w scb wcb ccb] wd], data as [ts lw ls lo [|c0 rest]].
  all: cbn [l_ts l_c].
  all: line_cases.
  all: repeat split; intros; cbn; lia.
Qed.

(** X19. With [max_silence] set, the time a playback sleeps in total is at
    most [max_silence] seconds for each line with a long leading pause, and
    it never sleeps a negative time. *)
Theorem playback_total_sleep_is_capped o st p lines :
  0 < max_silence o ->
  source_file_path (self st) = Some p ->
  fs (world st) !! p = Some lines ->
  0 <= slept_ms (trace (playback o st))
  <= 1000 * max_silence o * Z.of_nat (length (List.filter long_pause lines)).
Proof.
  intros Hmax Hp Hlines. unfold playback. unfold_m. rewrite Hp, Hlines.
  assert (forall loc s,
            0 <= slept_ms (trace (playback_loop o loc lines s))
            <= 1000 * max_silence o
               * Z.of_nat (length (List.filter long_pause lines))) as Hloop.
  { clear Hlines. induction lines as [|data lines IH]; intros loc s; [cbn; lia|].
    cbn [playback_loop List.filter]. unfold bind.
    pose proof (playback_line_slept o loc data s) as (H0 & Hcap & _).
    specialize (Hcap Hmax).
    destruct (playback_line o loc data s) as [s1 t1 [loc1|e]];
      cbn [final trace outcome] in *.
    - pose proof (IH loc1 s1) as IH'.
      destruct (playback_loop o loc1 lines s1) as [s2 t2 o2];
        cbn [final trace outcome] in *.
      rewrite slept_ms_app.
      destruct (long_pause data); cbn [length]; lia.
    - destruct (long_pause data); cbn [length]; nia. }
  pose proof (Hloop init_locals st) as Hinit.
  destruct (playback_loop o init_locals lines st) as [s1 t1 [loc1|e]];
    cbn [final trace outcome] in *.
  - by rewrite app_nil_r.
  - done.
Qed.

Lemma playback_total_sleep_witness :
  0 < max_silence options_gap /\
  slept_ms (trace (playback options_gap st_gap)) <= 5000.
Proof.
  split; [reflexivity|].
  refine (proj2 (playback_total_sleep_is_capped options_gap st_gap "test.json"
                   log_gap _ eq_refl _)).
  - reflexivity.
  - vm_compute; reflexivity.
Defined.

Lemma last_default_irrelevant {A} (a : A) l d d' :
  List.last (a :: l) d = List.last (a :: l) d'.
Proof.
  revert a. induction l as [|b l IH]; intros a; [done|].
  cbn [List.last]. apply IH.
Qed.

Lemma last_In {A} (a : A) l : In (List.last (a :: l) a) (a :: l).
Proof.
  revert a. induction l as [|b l IH]; intros a; [by left|].
  right. change (List.last (a :: b :: l) a) with (List.last (b :: l) a).
  rewrite (last_default_irrelevant b l a b). apply IH.
Qed.

Lemma playback_loop_slept_span o lines : forall loc st,
  ts_sorted lines -> lts_below loc lines ->
  Forall (fun l => 0 <= l_ts l) lines ->
  slept_ms (trace (playback_loop o loc lines st))
  <= match lines with
     | [] => 0
     | l :: _ =>
         l_ts (List.last lines l) - (if lts loc <? 0 then l_ts l else lts loc)
     end.
Proof.
  induction lines as [|data lines IH]; intros loc st Hsorted Hlts Hpos.
  - cbn. lia.
  - destruct Hsorted as [Hhead Hsorted].
    apply Forall_cons in Hpos as [Hpos0 Hpos].
    set (lts' := if lts loc <? 0 then l_ts data else lts loc).
    assert (lts' <= l_ts data /\ 0 <= lts') as [Hts Hlts0].
    { unfold lts'. destruct (lts loc <? 0) eqn:Hneg; [lia|].
      apply Z.ltb_ge in Hneg.
      destruct Hlts as [Hlts|Hlts]; [lia|]. inversion Hlts; subst. lia. }
    pose proof (playback_line_slept o loc data st) as (H0 & _ & Hgap).
    pose proof (playback_line_sorted o loc data st Hts) as [_ Hout].
    cbv zeta in Hgap. fold lts' in Hgap, Hout.
    assert (0 <= l_ts data - lts') as Hnonneg by lia. specialize (Hgap Hnonneg).
    assert (l_ts data <= l_ts (List.last (data :: lines) data)) as Hlast.
    { destruct lines as [|l2 lines']; [cbn; lia|].
      assert (In (List.last (l2 :: lines') data) (l2 :: lines')) as Hin.
      { rewrite (last_default_irrelevant l2 lines' data l2). apply last_In. }
      rewrite Forall_forall in Hhead. apply (Hhead _).
      apply list_elem_of_In. exact Hin. }
    cbn [playback_loop]. unfold bind.
    destruct (playback_line o loc data st) as [s1 t1 [loc1|e]];
      cbn [final trace outcome] in *.
    + destruct Hout as [Hlts1 _].
      assert (lts_below loc1 lines /\ 0 <= lts loc1) as [Hlts' Hlts1pos].
      { unfold lts_below. rewrite Hlts1. split; [right|destruct (has_code data); lia].
        destruct (has_code data); [exact Hhead|].
        unfold lts'. destruct (lts loc <? 0) eqn:Hneg; [exact Hhead|].
        apply Z.ltb_ge in Hneg.
        destruct Hlts as [Hlts|Hlts]; [lia|]. by inversion Hlts. }
      pose proof (IH loc1 s1 Hsorted Hlts' Hpos) as IH'.
      destruct (playback_loop o loc1 lines s1) as [s2 t2 o2];
        cbn [final trace outcome] in *.
      rewrite slept_ms_app.
      destruct lines as [|l2 lines'].
      * cbn [List.last]. destruct (has_code data); lia.
      * replace (lts loc1 <? 0) with false in IH'
          by (symmetry; apply Z.ltb_ge; lia).
        change (List.last (data :: l2 :: lines') data)
          with (List.last (l2 :: lines') data) in *.
        rewrite (last_default_irrelevant l2 lines' data l2) in *.
        rewrite Hlts1 in IH'. destruct (has_code data); lia.
    + destruct (has_code data); lia.
Qed.

(** X20. On a log with timestamps in order (none before 1970), whatever the
    options, the lengths of the [time.sleep] calls of [playback] add up to
    at most the time between the first and the last timestamp of the log.
    (Only the sleeps are bounded: the time the sink takes to play the
    delivered code is not part of it.) *)
Theorem playback_sleeps_within_recorded_span o st p lines :
  source_file_path (self st) = Some p ->
  fs (world st) !! p = Some lines ->
  ts_sorted lines ->
  Forall (fun l => 0 <= l_ts l) lines ->
  0 <= slept_ms (trace (playback o st)) <= span_ms lines.
Proof.
  intros Hp Hlines Hsorted Hpos. unfold playback. unfold_m. rewrite Hp, Hlines.
  assert (lts_below init_locals lines) as Hlts by (left; reflexivity).
  pose proof (playback_loop_slept_span o lines init_locals st Hsorted Hlts Hpos)
    as Hspan.
  assert (forall loc s, 0 <= slept_ms (trace (playback_loop o loc lines s)))
    as Hnonneg.
  { clear. induction lines as [|data lines IH]; intros loc s; [cbn; lia|].
    cbn [playback_loop]. unfold bind.
    pose proof (playback_line_slept o loc data s) as (H0 & _).
    destruct (playback_line o loc data s) as [s1 t1 [loc1|e]];
      cbn [final trace outcome] in *; [|done].
    pose proof (IH loc1 s1) as IH'.
    destruct (playback_loop o loc1 lines s1) as [s2 t2 o2];
      cbn [final trace outcome] in *.
    rewrite slept_ms_app. lia. }
  specialize (Hnonneg init_locals st).
  unfold span_ms.
  destruct (playback_loop o init_locals lines st) as [s1 t1 [loc1|e]];
    cbn [final trace outcome] in *.
  - rewrite app_nil_r. by destruct lines.
  - by destruct lines.
Qed.

Lemma log_gap_nonnegative : Forall (fun l => 0 <= l_ts l) log_gap.
Proof. repeat constructor; cbn; lia. Qed.

Lemma playback_sleeps_within_span_witness :
  span_ms log_gap = 21000 /\
  slept_ms (trace (playback Recorder.default_options st_gap)) <= 21000.
Proof.
  split; [reflexivity|].
  refine (proj2 (playback_sleeps_within_recorded_span Recorder.default_options
                   st_gap "test.json" log_gap eq_refl _ log_gap_sorted
                   log_gap_nonnegative)).
  vm_compute; reflexivity.
Defined.

(** X21. A run of sender announcements fires the observer once per change:
    for any list of ids handed to [update_sender] one after the other, the
    station list is told of a new sender exactly for the ids that differ
    from their predecessor (the first from the sender recognized before),
    in order, and [sender_ID] ends as the last id. *)
Theorem sender_announcements_fire_on_changes kc ids : forall st,
  let r := run_calls kc (map CallUpdateSender ids) st in
  outcome r = Ok tt /\
  List.filter is_new_sender (trace r)
  = map EvNewSender (changes_from (Some (sender_ID st)) ids) /\
  sender_ID (final r) = List.last ids (sender_ID st).
Proof.
  induction ids as [|id ids IH]; intros st; cbv zeta; [done|].
  cbn [map run_calls run_call changes_from]. unfold bind.
  pose proof (update_sender_sets_id st id) as Hid.
  assert (outcome (update_sender id st) = Ok tt /\
          List.filter is_new_sender (trace (update_sender id st))
          = map EvNewSender
                (if bool_decide (Some id = Some (sender_ID st)) then [] else [id]))
    as [Hok Htr].
  { destruct (decide (id = sender_ID st)) as [Heq|Hne].
    - rewrite (update_sender_recognized st id) by done.
      by rewrite bool_decide_eq_true_2 by congruence.
    - rewrite (update_sender_new st id) by done.
      by rewrite bool_decide_eq_false_2 by congruence. }
  destruct (update_sender id st) as [s1 t1 [[]|e]]; cbn [final trace outcome] in *;
    [|discriminate].
  pose proof (IH s1) as (Hok' & Htr' & Hlast').
  destruct (run_calls kc (map CallUpdateSender ids) s1) as [s2 t2 o2];
    cbn [final trace outcome] in *.
  rewrite Hid in Htr', Hlast'.
  split; [done|]. split.
  - by rewrite List.filter_app, Htr, Htr', map_app.
  - rewrite Hlast'. destruct ids as [|id' ids']; [done|].
    change (List.last (id :: id' :: ids') (sender_ID st))
      with (List.last (id' :: ids') (sender_ID st)).
    apply last_default_irrelevant.
Qed.
